(** * Ductulator: the numeric solving engine of [Ductulator.tsx]

    A shallow embedding of the rectangular-duct sizing engine: the physics
    helpers, the evaluator [calcRectNums], the two bisection solvers and the
    mode dispatcher [runSolverWithValues] with its coordinate-descent
    ("magic") search.

    JavaScript numbers are IEEE 754 binary64 values, modelled by Rocq's
    primitive [float]; [+ - * /], comparisons, [Math.abs] and [Math.sqrt]
    are the correctly rounded binary64 operations.  [Math.exp], [Math.pow]
    and [Math.log10] are "implementation-approximated" in ECMAScript: the
    engine's definitions take them from a [MathLib] record.  The general
    theorems hold for every such library; the statements about one concrete
    duty name the reference library [SampleMath.lib] they are evaluated
    with. *)

From Stdlib Require Import Floats ZArith List String Bool Lia.
From Stdlib Require Uint63.
Import ListNotations.

Set Warnings "-inexact-float".
Local Open Scope float_scope.

(** ** JavaScript number primitives *)

Module JS.

(** [Number.isFinite]. *)
Definition isFinite (x : float) : bool := is_finite x.

(** Truthiness of a number: [0], [-0] and [NaN] are falsy. *)
Definition truthy (x : float) : bool := negb (is_zero x || is_nan x).

(** [x || d] on numbers. *)
Definition orElse (x d : float) : float := if truthy x then x else d.

(** [a > b], [a <= b] and friends are [false] as soon as one side is NaN. *)
Definition gt (a b : float) : bool := b <? a.
Definition le (a b : float) : bool := a <=? b.
Definition lt (a b : float) : bool := a <? b.

(** [Math.max] of two numbers: NaN when either is NaN, and [+0] above [-0]. *)
Definition max2 (a b : float) : float :=
  if is_nan a || is_nan b then nan
  else if a <? b then b
  else if b <? a then a
  else if is_zero a then (if get_sign a then b else a)
  else a.

(** [Math.max(...xs)]: the fold starts from [-Infinity]. *)
Definition maxList (xs : list float) : float := fold_left max2 xs neg_infinity.

(** The length of a short array as a number. *)
Definition ofNat (n : nat) : float := of_uint63 (Uint63.of_Z (Z.of_nat n)).

End JS.

(** The three library functions whose results ECMAScript leaves to the host. *)
Record MathLib : Type := {
  Math_exp : float -> float;
  Math_pow : float -> float -> float;
  Math_log10 : float -> float
}.

(** ** Units and physics helpers *)

Definition mmToM (mm : float) : float := mm / 1000.
Definition mToMm (m : float) : float := m * 1000.
Definition lsToM3s (ls : float) : float := ls * 0.001.
Definition m3hToM3s (m3h : float) : float := m3h / 3600.

(** [safeNum] on a value that is already a number. *)
Definition safeNum (v fallback : float) : float :=
  if JS.isFinite v then v else fallback.

Definition rectArea_m2_from_mm (w_mm h_mm : float) : float :=
  JS.max2 0 ((w_mm / 1000) * (h_mm / 1000)).

Definition rectPerimeter_m_from_mm (w_mm h_mm : float) : float :=
  2 * ((w_mm / 1000) + (h_mm / 1000)).

Definition ROUGHNESS : list (string * float) :=
  [ ("Galvanised steel"%string, 0.00015);
    ("Mild steel"%string, 0.000045);
    ("Aluminium"%string, 0.0000018);
    ("PVC"%string, 5e-7) ].

Fixpoint lookup (k : string) (tbl : list (string * float)) : option float :=
  match tbl with
  | [] => None
  | (k', v) :: rest => if String.eqb k k' then Some v else lookup k rest
  end.

(** The property names every object literal inherits from
    [Object.prototype]: [ROUGHNESS[mat]] finds a function (or, for
    [__proto__], the prototype object) under them, which is neither [null]
    nor [undefined], so [??] keeps it. *)
Definition objectPrototypeKeys : list string :=
  [ "constructor"%string; "toString"%string; "toLocaleString"%string;
    "valueOf"%string; "hasOwnProperty"%string; "isPrototypeOf"%string;
    "propertyIsEnumerable"%string; "__proto__"%string;
    "__defineGetter__"%string; "__defineSetter__"%string;
    "__lookupGetter__"%string; "__lookupSetter__"%string ].

(** [ROUGHNESS[mat] ?? 0.00015] as the number its one use, the division
    [eps / Math.max(Dh, 1e-9)], makes of it: the table's value for an own
    key, [NaN] for an inherited property, the default for any other name. *)
Definition roughness (mat : string) : float :=
  match lookup mat ROUGHNESS with
  | Some eps => eps
  | None =>
      if existsb (String.eqb mat) objectPrototypeKeys then nan else 0.00015
  end.

Inductive FlowUnit : Type := Ls | M3s | M3h.

Definition flowInputToM3s (val : float) (unit : FlowUnit) : float :=
  let v := safeNum val 0 in
  match unit with
  | Ls => lsToM3s v
  | M3h => m3hToM3s v
  | M3s => v
  end.

Section Physics.

Variable M : MathLib.

Definition saturationVaporPressurePa (Tc : float) : float :=
  610.94 * Math_exp M ((17.625 * Tc) / (243.04 + Tc)).

Definition moistAirDensity (pressurePa Tc RHpercent : float) : float :=
  let T := Tc + 273.15 in
  let Rd := 287.058 in
  let Rv := 461.495 in
  let es := saturationVaporPressurePa Tc in
  let pv := (RHpercent / 100) * es in
  let pd := JS.max2 (pressurePa - pv) 0 in
  pd / (Rd * T) + pv / (Rv * T).

Definition dynamicViscosityAir (Tc : float) : float :=
  let T := Tc + 273.15 in
  let mu0 := 1.716e-5 in
  let T0 := 273.15 in
  let S := 110.4 in
  mu0 * Math_pow M (T / T0) 1.5 * ((T0 + S) / (T + S)).

Definition haalandFrictionFactor (Re eps_over_D : float) : float :=
  if negb (JS.isFinite Re) || JS.le Re 0 then nan
  else if JS.lt Re 2300 then 64.0 / Re
  else
    let A := Math_pow M (eps_over_D / 3.7) 1.11 + 6.9 / Re in
    1.0 / Math_pow M (-1.8 * Math_log10 M A) 2.

(** The record [calcRectNums] returns. *)
Record Calc : Type := {
  A : float;
  Dh : float;
  V : float;
  Re : float;
  f : float;
  dp_per_m : float;
  rho : float;
  mu : float;
  velocityPressure : float;
  eqDiameter : float
}.

Definition calcRectNums (w_mm h_mm Q_m3s T RH : float) (mat : string) : Calc :=
  let p_atm := 101325 in
  let rho := moistAirDensity p_atm T RH in
  let mu := dynamicViscosityAir T in
  let A := rectArea_m2_from_mm w_mm h_mm in
  let P := rectPerimeter_m_from_mm w_mm h_mm in
  let Dh := if JS.gt A 0 then (4 * A) / P else 0 in
  let V := if JS.gt A 0 then Q_m3s / A else 0 in
  let Re := (rho * abs V * Dh) / mu in
  let eps := roughness mat in
  let f := haalandFrictionFactor Re (eps / JS.max2 Dh 1e-9) in
  let dp_per_m := if JS.gt Dh 0 then (f * (rho * V * V)) / (2 * Dh) else infinity in
  let velocityPressure := 0.5 * rho * V * V in
  let eqDiameter := Dh in
  {| A := A; Dh := Dh; V := V; Re := Re; f := f; dp_per_m := dp_per_m;
     rho := rho; mu := mu; velocityPressure := velocityPressure;
     eqDiameter := eqDiameter |}.

End Physics.

(** ** Component state read by the solvers *)

Inductive Mode : Type := pressureDrop | fixedDim | maxFlow | magic.

Record Locks : Type := {
  lk_flow : bool;
  lk_width : bool;
  lk_height : bool;
  lk_velocity : bool;
  lk_dp : bool
}.

(** The state of the component that the solver closures capture.
    [temperature] and [rh] hold [Number(v)] of the stored value; [flowInput]
    is the flow of the current render, which the magic targets read. *)
Record Env : Type := {
  temperature : float;
  rh : float;
  material : string;
  mode : Mode;
  flowUnit : FlowUnit;
  flowInput : float;
  magicLocks : Locks
}.

(** ** The two bisection solvers *)

Record DimSolution : Type := {
  displayValueMm : float;
  sol_dp : float
}.

Section Solvers.

Variable M : MathLib.
Variable env : Env.

(** The evaluation every solver repeats. *)
Definition evalAt (w_mm h_mm Q_m3s : float) : Calc :=
  calcRectNums M w_mm h_mm Q_m3s
    (safeNum (temperature env) 20) (safeNum (rh env) 50) (material env).

(** The relative-tolerance test shared by both bisections. *)
Definition withinTol (dp target : float) : bool :=
  JS.lt (abs (dp - target) / JS.max2 target 1e-6) 1e-4.

(** The [for] loop of [solveMissingDimension], [n] iterations left;
    [best] is [(mid, dp)] of the last finite trial. *)
Fixpoint dimLoop (fixedIsWidth : bool) (fixed_m Q_m3s target : float)
    (n : nat) (lo hi : float) (best : option (float * float))
    : option (float * float) :=
  match n with
  | O => best
  | S n' =>
      let mid := 0.5 * (lo + hi) in
      let w := if fixedIsWidth then fixed_m else mid in
      let h := if fixedIsWidth then mid else fixed_m in
      let dp := dp_per_m (evalAt (mToMm w) (mToMm h) Q_m3s) in
      if negb (JS.isFinite dp) then best
      else
        let lo' := if JS.gt dp target then mid else lo in
        let hi' := if JS.gt dp target then hi else mid in
        let best' := Some (mid, dp) in
        if withinTol dp target then best'
        else dimLoop fixedIsWidth fixed_m Q_m3s target n' lo' hi' best'
  end.

Definition solveMissingDimension (fixedIsWidth : bool)
    (fixedValueDisplay Q_m3s targetDpPaPerM : float) : option DimSolution :=
  let fixed_m := mmToM (safeNum fixedValueDisplay 0) in
  let target := safeNum targetDpPaPerM 0 in
  if JS.le fixed_m 0 || JS.le Q_m3s 0 || JS.le target 0 then None
  else
    match dimLoop fixedIsWidth fixed_m Q_m3s target 60 1e-4 5.0 None with
    | None => None
    | Some (mid, dp) => Some {| displayValueMm := mToMm mid; sol_dp := dp |}
    end.

(** The [for] loop of [solveMaxFlow], [n] iterations left. *)
Fixpoint flowLoop (w h target : float) (n : nat) (lo hi bestQ : float) : float :=
  match n with
  | O => bestQ
  | S n' =>
      let mid := 0.5 * (lo + hi) in
      let dp := dp_per_m (evalAt (mToMm w) (mToMm h) mid) in
      if negb (JS.isFinite dp) then bestQ
      else
        let hi' := if JS.gt dp target then mid else hi in
        let lo' := if JS.gt dp target then lo else mid in
        let bestQ' := if JS.gt dp target then bestQ else mid in
        if withinTol dp target then bestQ'
        else flowLoop w h target n' lo' hi' bestQ'
  end.

(** [solveMaxFlow]: [None] is the [null] of the guard. *)
Definition solveMaxFlow (w_mm h_mm targetDpPaPerM : float) : option float :=
  let w := mmToM (safeNum w_mm 0) in
  let h := mmToM (safeNum h_mm 0) in
  let target := safeNum targetDpPaPerM 0 in
  if JS.le w 0 || JS.le h 0 || JS.le target 0 then None
  else Some (flowLoop w h target 80 1e-6 10 0).

End Solvers.

(** ** The mode dispatcher *)

(** The object handed to [setResults], one constructor per shape. *)
Inductive Result : Type :=
| ResPressureDrop (width_mm height_mm flow_m3s eqDiameter_m averageVelocity
                   effectiveVelocity dp velocityPressure_Pa : float)
| ResFixedDim (width_mm height_mm flow_m3s dp : float)
| ResMaxFlowV (width_mm height_mm maxFlow_m3s velocity dp : float)
| ResMaxFlowDp (width_mm height_mm : float) (maxFlow_m3s : option float)
               (velocity dp_target : float)
| ResMagic (width_mm height_mm flow_m3s velocity dp : float).

(** What one call of [runSolverWithValues] does to the component: the
    argument of [setResults] if it is called, the warnings it sets (the list
    is empty on entry), the [(width, height, flowInput)] it writes back, and
    whether it clears the stale flag. *)
Record Outcome : Type := {
  results : option Result;
  warnings : list string;
  writeBack : option (float * float * float);
  staleCleared : bool
}.

Definition warnHighVelocity : string :=
  "Velocity high (>15 m/s) — check suitability".
Definition warnEitherOr : string :=
  "Enter either Velocity OR Pressure Drop in Max Flow mode, not both.".
Definition warnTooManyLocked : string :=
  "Too many locked fields — unlock one to allow solving.".
Definition warnFailedToConverge : string :=
  "Magic solver failed to converge — try different locks or starting values.".
Definition warnNotEnough (suggestion : string) : string :=
  ("Not enough constraints — " ++ suggestion ++ ".")%string.

Definition reported (r : Result) : Outcome :=
  {| results := Some r; warnings := []; writeBack := None; staleCleared := true |}.

Definition warned (msg : string) : Outcome :=
  {| results := None; warnings := [msg]; writeBack := None; staleCleared := false |}.

Definition nothingDone : Outcome :=
  {| results := None; warnings := []; writeBack := None; staleCleared := false |}.

(** [Object.values(locked).filter(Boolean).length]. *)
Definition lockedCount (locked : Locks) : nat :=
  List.length (filter (fun b : bool => b)
    [lk_flow locked; lk_width locked; lk_height locked;
     lk_velocity locked; lk_dp locked]).

(** The variables the magic search moves. *)
Inductive Var : Type := VFlow | VWidth | VHeight.

Record MagicState : Type := {
  st_flow : float;
  st_width : float;
  st_height : float
}.

Record Targets : Type := {
  tg_flow : float;
  tg_width : float;
  tg_height : float;
  tg_velocity : float;
  tg_dp : float
}.

Definition getVar (v : Var) (s : MagicState) : float :=
  match v with
  | VFlow => st_flow s
  | VWidth => st_width s
  | VHeight => st_height s
  end.

Definition setVar (v : Var) (x : float) (s : MagicState) : MagicState :=
  match v with
  | VFlow => {| st_flow := x; st_width := st_width s; st_height := st_height s |}
  | VWidth => {| st_flow := st_flow s; st_width := x; st_height := st_height s |}
  | VHeight => {| st_flow := st_flow s; st_width := st_width s; st_height := x |}
  end.

Definition isLocked (locked : Locks) (v : Var) : bool :=
  match v with
  | VFlow => lk_flow locked
  | VWidth => lk_width locked
  | VHeight => lk_height locked
  end.

Definition stepFactors (v : Var) : float :=
  match v with
  | VFlow => 1.1
  | VWidth => 1.05
  | VHeight => 1.05
  end.

(** The candidates that are not [null], in order. *)
Definition nonNull (xs : list (option float)) : list float :=
  flat_map (fun x => match x with Some v => [v] | None => [] end) xs.

(** [candidates.length ? Math.max(...candidates.map(safeNum)) : null]. *)
Definition pickCandidate (candidates : list float) : option float :=
  match candidates with
  | [] => None
  | _ => Some (JS.maxList (map (fun x => safeNum x 0) candidates))
  end.

(** [if (pick) solved = pick]. *)
Definition assignIfTruthy (pick : option float) (current : float) : float :=
  match pick with
  | Some p => if JS.truthy p then p else current
  | None => current
  end.

Record MagicBest : Type := {
  b_state : MagicState;
  b_rms : float;
  b_calc : Calc
}.

Section Dispatcher.

Variable M : MathLib.
Variable env : Env.

(** *** Solve-one-dimension mode; [solve] is the bisection it calls. *)

(** The dimension that gives the area [Qv / needV] ([hFromV], [wFromV]). *)
Definition candidateFromV (fixed_mm Qv needV : float) : option float :=
  if JS.gt needV 0 && JS.gt Qv 0
  then let Aneed := Qv / needV in Some (mToMm (Aneed / mmToM fixed_mm))
  else None.

(** The dimension the bisection finds ([hFromDp], [wFromDp]). *)
Definition candidateFromDp
    (solve : bool -> float -> float -> float -> option DimSolution)
    (fixedIsWidth : bool) (fixed_mm Qv needDp : float) : option float :=
  if JS.gt needDp 0 && JS.gt Qv 0
  then match solve fixedIsWidth fixed_mm Qv needDp with
       | Some sol => Some (displayValueMm sol)
       | None => None
       end
  else None.

Definition missingFromCandidates
    (solve : bool -> float -> float -> float -> option DimSolution)
    (fixedIsWidth : bool) (fixed_mm Qv needV needDp : float) : option float :=
  pickCandidate
    (nonNull [candidateFromV fixed_mm Qv needV;
              candidateFromDp solve fixedIsWidth fixed_mm Qv needDp]).

Definition fixedDimWith
    (solve : bool -> float -> float -> float -> option DimSolution)
    (w_mm h_mm Q velocityVal targetDpVal : float) : Outcome :=
  let needDp := safeNum targetDpVal 0 in
  let needV := safeNum velocityVal 0 in
  let Qv := if JS.gt Q 0 then Q
            else if JS.gt needV 0 then needV * rectArea_m2_from_mm w_mm h_mm
            else 0 in
  let solvedW :=
    if JS.gt w_mm 0 && (negb (JS.truthy h_mm) || JS.le h_mm 0) then w_mm
    else if JS.gt h_mm 0 && (negb (JS.truthy w_mm) || JS.le w_mm 0)
    then assignIfTruthy
           (missingFromCandidates solve false h_mm Qv needV needDp) w_mm
    else w_mm in
  let solvedH :=
    if JS.gt w_mm 0 && (negb (JS.truthy h_mm) || JS.le h_mm 0)
    then assignIfTruthy
           (missingFromCandidates solve true w_mm Qv needV needDp) h_mm
    else h_mm in
  let calc := evalAt M env solvedW solvedH Qv in
  reported (ResFixedDim solvedW solvedH Qv (dp_per_m calc)).

(** *** Magic mode *)

Section Magic.

Variable locked : Locks.
Variable targets : Targets.

Definition relResidual (value target : float) : float :=
  (value - target) / JS.max2 target 1e-6.

(** The values of [res], in insertion order. *)
Definition residualValues (s : MagicState) (calc : Calc) : list float :=
  (if lk_flow locked then [relResidual (st_flow s) (tg_flow targets)] else [])
  ++ (if lk_width locked then [relResidual (st_width s) (tg_width targets)] else [])
  ++ (if lk_height locked then [relResidual (st_height s) (tg_height targets)] else [])
  ++ (if lk_velocity locked then [relResidual (V calc) (tg_velocity targets)] else [])
  ++ (if lk_dp locked then [relResidual (dp_per_m calc) (tg_dp targets)] else []).

Definition rmsOf (res : list float) : float :=
  match res with
  | [] => 0
  | _ => sqrt (fold_left (fun a b => a + b) (map (fun r => r * r) res) 0
               / JS.ofNat (List.length res))
  end.

(** [residuals(s)]: the [rms] and [calc] fields. *)
Definition residuals (s : MagicState) : float * Calc :=
  let calc := evalAt M env (st_width s) (st_height s) (st_flow s) in
  (rmsOf (residualValues s calc), calc).

Definition rms (s : MagicState) : float := fst (residuals s).

(** One trial: perturb [v], then floor all three fields. *)
Definition trialOf (base : MagicState) (v : Var) (dir : float) : MagicState :=
  let t := setVar v (getVar v base * dir) base in
  {| st_flow := JS.max2 (st_flow t) 1e-6;
     st_width := JS.max2 (st_width t) 10;
     st_height := JS.max2 (st_height t) 10 |}.

(** The two directions, in the order the loop tries them. *)
Definition directions (v : Var) : list float :=
  [1 / stepFactors v; stepFactors v].

(** The inner [for (const dir of ...)] loop over [bestLocal]. *)
Definition bestLocal (base : MagicState) (v : Var) : float * float :=
  fold_left
    (fun bl dir =>
       let trial := trialOf base v dir in
       let r := rms trial in
       if JS.lt r (snd bl) then (getVar v trial, r) else bl)
    (directions v) (getVar v base, infinity).

(** The body of [for (const varName of ...)]. *)
Definition updateVar (state : MagicState) (v : Var) : MagicState :=
  if isLocked locked v then state
  else setVar v (fst (bestLocal state v)) state.

Definition magicRound (state : MagicState) : MagicState :=
  fold_left updateVar [VFlow; VWidth; VHeight] state.

(** The outer loop, [n] rounds left. *)
Fixpoint magicLoop (n : nat) (state : MagicState) (best : option MagicBest)
    : option MagicBest :=
  match n with
  | O => best
  | S n' =>
      let state' := magicRound state in
      let cur := residuals state' in
      let best' :=
        match best with
        | None => {| b_state := state'; b_rms := fst cur; b_calc := snd cur |}
        | Some b =>
            if JS.lt (fst cur) (b_rms b)
            then {| b_state := state'; b_rms := fst cur; b_calc := snd cur |}
            else b
        end in
      if JS.lt (b_rms best') 1e-4 then Some best'
      else magicLoop n' state' (Some best')
  end.

End Magic.

Definition magicTargets (w_mm h_mm velocityVal targetDpVal : float) : Targets :=
  {| tg_flow := flowInputToM3s (flowInput env) (flowUnit env);
     tg_width := safeNum w_mm 0;
     tg_height := safeNum h_mm 0;
     tg_velocity := safeNum velocityVal 0;
     tg_dp := safeNum targetDpVal 0 |}.

Definition magicInit (targets : Targets) : MagicState :=
  {| st_flow := JS.orElse (tg_flow targets) 0.1;
     st_width := JS.orElse (tg_width targets) 200;
     st_height := JS.orElse (tg_height targets) 200 |}.

(** The search of magic mode: [best] after the loop. *)
Definition magicSearch (w_mm h_mm velocityVal targetDpVal : float)
    : option MagicBest :=
  let targets := magicTargets w_mm h_mm velocityVal targetDpVal in
  magicLoop (magicLocks env) targets 200 (magicInit targets) None.

Definition magicSuggestion (locked : Locks) : string :=
  if negb (lk_width locked) then "Enter duct width"%string
  else if negb (lk_height locked) then "Enter duct height"%string
  else if negb (lk_flow locked) && negb (lk_velocity locked)
  then "Enter flow rate or velocity"%string
  else "Provide additional locked input"%string.

Definition magicMode (w_mm h_mm velocityVal targetDpVal : float) : Outcome :=
  let locked := magicLocks env in
  if (4 <=? lockedCount locked)%nat then warned warnTooManyLocked
  else if (lockedCount locked <? 2)%nat
  then warned (warnNotEnough (magicSuggestion locked))
  else
    match magicSearch w_mm h_mm velocityVal targetDpVal with
    | Some best =>
        let s := b_state best in
        let calc := evalAt M env (st_width s) (st_height s) (st_flow s) in
        {| results := Some (ResMagic (st_width s) (st_height s) (st_flow s)
                                     (V calc) (dp_per_m calc));
           warnings := [];
           writeBack := Some (st_width s, st_height s, st_flow s);
           staleCleared := true |}
    | None => warned warnFailedToConverge
    end.

(** *** The other two modes *)

Definition pressureDropMode (w_mm h_mm Q : float) : Outcome :=
  let calc := evalAt M env w_mm h_mm Q in
  {| results := Some (ResPressureDrop w_mm h_mm Q (eqDiameter calc) (V calc)
                        (V calc) (dp_per_m calc) (velocityPressure calc));
     warnings := if JS.gt (V calc) 15 then [warnHighVelocity] else [];
     writeBack := None;
     staleCleared := true |}.

Definition maxFlowMode (w_mm h_mm velocityVal targetDpVal : float) : Outcome :=
  let needDp := safeNum targetDpVal 0 in
  let needV := safeNum velocityVal 0 in
  if JS.gt needV 0 && JS.gt needDp 0 then warned warnEitherOr
  else if JS.gt needV 0 then
    let A := rectArea_m2_from_mm w_mm h_mm in
    let Qcalc := needV * A in
    let calc := evalAt M env w_mm h_mm Qcalc in
    reported (ResMaxFlowV w_mm h_mm Qcalc needV (dp_per_m calc))
  else if JS.gt needDp 0 then
    let maxQ := solveMaxFlow M env w_mm h_mm needDp in
    let calc := evalAt M env w_mm h_mm
                  (match maxQ with Some q => JS.orElse q 0 | None => 0 end) in
    reported (ResMaxFlowDp w_mm h_mm maxQ (V calc) needDp)
  else nothingDone.

Definition runSolverWithValues
    (w_mm h_mm flowInputVal velocityVal targetDpVal : float) : Outcome :=
  let Q := flowInputToM3s flowInputVal (flowUnit env) in
  match mode env with
  | pressureDrop => pressureDropMode w_mm h_mm Q
  | fixedDim =>
      fixedDimWith (solveMissingDimension M env) w_mm h_mm Q velocityVal targetDpVal
  | maxFlow => maxFlowMode w_mm h_mm velocityVal targetDpVal
  | magic => magicMode w_mm h_mm velocityVal targetDpVal
  end.

End Dispatcher.

(** ** A reference math library

    An executable [MathLib] built from binary64 arithmetic alone (argument
    halving and a Taylor polynomial for [exp], an [atanh] series on the
    mantissa for the logarithm), accurate to roughly twelve digits.  It is
    used to evaluate the engine on concrete inputs; no theorem that is
    stated for every [MathLib] depends on it. *)

Module SampleMath.

Fixpoint horner (x : float) (k : nat) (kf acc : float) : float :=
  match k with
  | O => acc
  | S k' => horner x k' (kf - 1) (1 + x / kf * acc)
  end.

(** [sum_{i <= 20} x^i / i!]. *)
Definition expSmall (x : float) : float := horner x 20 20 1.

Fixpoint squareN (n : nat) (x : float) : float :=
  match n with
  | O => x
  | S n' => squareN n' (x * x)
  end.

Definition exp (x : float) : float :=
  if is_nan x then nan
  else if 710 <? x then infinity
  else if x <? -746 then 0
  else squareN 10 (expSmall (x / 1024)).

Fixpoint atanhSeries (t2 : float) (k : nat) (d acc : float) : float :=
  match k with
  | O => acc
  | S k' => atanhSeries t2 k' (d - 2) (1 / d + t2 * acc)
  end.

Definition ln2 : float := 0x1.62e42fefa39efp-1.
Definition ln10 : float := 0x1.26bb1bbb55516p+1.

Definition ofZ (z : Z) : float :=
  match z with
  | Z0 => 0
  | Zpos _ => of_uint63 (Uint63.of_Z z)
  | Zneg _ => - of_uint63 (Uint63.of_Z (Z.opp z))
  end.

(** Natural logarithm of a positive finite number. *)
Definition lnPos (x : float) : float :=
  let (m, e) := Z.frexp x in
  let t := (m - 1) / (m + 1) in
  ofZ e * ln2 + 2 * t * atanhSeries (t * t) 25 49 0.

Definition ln (x : float) : float :=
  if is_nan x then nan
  else if x <? 0 then nan
  else if is_zero x then neg_infinity
  else if is_infinity x then infinity
  else lnPos x.

Definition log10 (x : float) : float := ln x / ln10.

Definition pow (b e : float) : float :=
  if is_nan e then nan
  else if is_zero e then 1
  else if is_nan b then nan
  else if e =? 2 then b * b
  else if b <? 0 then nan
  else exp (e * ln b).

Definition lib : MathLib :=
  {| Math_exp := exp; Math_pow := pow; Math_log10 := log10 |}.

End SampleMath.

Definition officeEnv (m : Mode) (locks : Locks) : Env :=
  {| temperature := 20; rh := 50; material := "Galvanised steel";
     mode := m; flowUnit := Ls; flowInput := 100; magicLocks := locks |}.

Definition noLocks : Locks :=
  {| lk_flow := false; lk_width := false; lk_height := false;
     lk_velocity := false; lk_dp := false |}.

(** ** Lock toggles *)

(** The keys of [magicLocks]. *)
Inductive LockKey : Type := KFlow | KWidth | KHeight | KVelocity | KDp.

Definition keyLocked (key : LockKey) (s : Locks) : bool :=
  match key with
  | KFlow => lk_flow s
  | KWidth => lk_width s
  | KHeight => lk_height s
  | KVelocity => lk_velocity s
  | KDp => lk_dp s
  end.

(** [{ ...s, [key]: !s[key] }]. *)
Definition flipLock (key : LockKey) (s : Locks) : Locks :=
  match key with
  | KFlow => {| lk_flow := negb (lk_flow s); lk_width := lk_width s;
                lk_height := lk_height s; lk_velocity := lk_velocity s;
                lk_dp := lk_dp s |}
  | KWidth => {| lk_flow := lk_flow s; lk_width := negb (lk_width s);
                 lk_height := lk_height s; lk_velocity := lk_velocity s;
                 lk_dp := lk_dp s |}
  | KHeight => {| lk_flow := lk_flow s; lk_width := lk_width s;
                  lk_height := negb (lk_height s); lk_velocity := lk_velocity s;
                  lk_dp := lk_dp s |}
  | KVelocity => {| lk_flow := lk_flow s; lk_width := lk_width s;
                    lk_height := lk_height s; lk_velocity := negb (lk_velocity s);
                    lk_dp := lk_dp s |}
  | KDp => {| lk_flow := lk_flow s; lk_width := lk_width s;
              lk_height := lk_height s; lk_velocity := lk_velocity s;
              lk_dp := negb (lk_dp s) |}
  end.

(** [toggleMagicLock]: the new locks and the new stale flag, from the live
    mode switch, the key, the locks and the stale flag. *)
Definition toggleMagicLock (liveMode : bool) (key : LockKey)
    (st : Locks * bool) : Locks * bool :=
  (flipLock key (fst st), if negb liveMode then true else snd st).

(** The component after [setFlowInput(q)]. *)
Definition withFlowInput (q : float) (env : Env) : Env :=
  {| temperature := temperature env; rh := rh env; material := material env;
     mode := mode env; flowUnit := flowUnit env; flowInput := q;
     magicLocks := magicLocks env |}.

(** * Vocabulary of the statements *)

(** The values a product with a zero can take. *)
Definition zeroOrNan (x : float) : Prop := x = zero \/ x = neg_zero \/ x = nan.

(** A tracked best entry records the residual of its own state. *)
Definition bestOk (M : MathLib) (env : Env) (locked : Locks)
    (targets : Targets) (b : MagicBest) : Prop :=
  b_rms b = rms M env locked targets (b_state b)
  /\ b_calc b = snd (residuals M env locked targets (b_state b)).

(** Lock sets used in the examples. *)
Definition locksAllButDp : Locks :=
  {| lk_flow := true; lk_width := true; lk_height := true;
     lk_velocity := true; lk_dp := false |}.

Definition locksWidthOnly : Locks :=
  {| lk_flow := false; lk_width := true; lk_height := false;
     lk_velocity := false; lk_dp := false |}.

Definition locksWidthHeightVelocity : Locks :=
  {| lk_flow := false; lk_width := true; lk_height := true;
     lk_velocity := true; lk_dp := false |}.

Definition locksFlowWidth : Locks :=
  {| lk_flow := true; lk_width := true; lk_height := false;
     lk_velocity := false; lk_dp := false |}.

(** The trials [(mid, dp)] the loop of [solveMaxFlow] evaluates, in order;
    a non-finite trial is the last one. *)
Fixpoint flowTrials (M : MathLib) (env : Env) (w h target : float)
    (n : nat) (lo hi : float) : list (float * float) :=
  match n with
  | O => []
  | S n' =>
      let mid := 0.5 * (lo + hi) in
      let dp := dp_per_m (evalAt M env (mToMm w) (mToMm h) mid) in
      if negb (JS.isFinite dp) then [(mid, dp)]
      else
        (mid, dp)
        :: (if withinTol dp target then []
            else flowTrials M env w h target n'
                   (if JS.gt dp target then lo else mid)
                   (if JS.gt dp target then mid else hi))
  end.

(** A trial is feasible when its pressure drop is a finite number that does
    not exceed the target. *)
Definition feasible (target : float) (trial : float * float) : bool :=
  JS.isFinite (snd trial) && negb (JS.gt (snd trial) target).

(** Air at absolute zero and zero humidity, otherwise the office defaults. *)
Definition absoluteZeroEnv (m : Mode) (locks : Locks) : Env :=
  {| temperature := -273.15; rh := 0; material := "Galvanised steel";
     mode := m; flowUnit := Ls; flowInput := 100; magicLocks := locks |}.

(** The flow the mode evaluates with. *)
Definition fixedDimFlow (w_mm h_mm Q velocityVal : float) : float :=
  let needV := safeNum velocityVal 0 in
  if JS.gt Q 0 then Q
  else if JS.gt needV 0 then needV * rectArea_m2_from_mm w_mm h_mm
  else 0.

(** The trials [(mid, dp)] the loop of [solveMissingDimension] evaluates,
    in order; a non-finite trial is the last one. *)
Fixpoint dimTrials (M : MathLib) (env : Env) (fixedIsWidth : bool)
    (fixed_m Q_m3s target : float) (n : nat) (lo hi : float)
    : list (float * float) :=
  match n with
  | O => []
  | S n' =>
      let mid := 0.5 * (lo + hi) in
      let w := if fixedIsWidth then fixed_m else mid in
      let h := if fixedIsWidth then mid else fixed_m in
      let dp := dp_per_m (evalAt M env (mToMm w) (mToMm h) Q_m3s) in
      if negb (JS.isFinite dp) then [(mid, dp)]
      else
        (mid, dp)
        :: (if withinTol dp target then []
            else dimTrials M env fixedIsWidth fixed_m Q_m3s target n'
                   (if JS.gt dp target then mid else lo)
                   (if JS.gt dp target then hi else mid))
  end.

(** The guard of [solveMissingDimension]. *)
Definition dimGuardFails (fixedValueDisplay Q_m3s targetDpPaPerM : float) : bool :=
  JS.le (mmToM (safeNum fixedValueDisplay 0)) 0 || JS.le Q_m3s 0
  || JS.le (safeNum targetDpPaPerM 0) 0.

(** The pressure drop [solveMissingDimension] computes for a trial value
    [mid] (in metres) of the free dimension. *)
Definition dimTrialDp (M : MathLib) (env : Env) (fixedIsWidth : bool)
    (fixed_m Q_m3s mid : float) : float :=
  dp_per_m (evalAt M env (mToMm (if fixedIsWidth then fixed_m else mid))
              (mToMm (if fixedIsWidth then mid else fixed_m)) Q_m3s).

(** The floor a trial applies to each variable. *)
Definition floorOf (v : Var) : float :=
  match v with
  | VFlow => 1e-6
  | VWidth => 10
  | VHeight => 10
  end.

(** The states the magic loop reaches, one per round it runs. *)
Fixpoint magicStates (M : MathLib) (env : Env) (locked : Locks) (targets : Targets)
    (n : nat) (state : MagicState) (best : option MagicBest) : list MagicState :=
  match n with
  | O => []
  | S n' =>
      let state' := magicRound M env locked targets state in
      let cur := residuals M env locked targets state' in
      let best' :=
        match best with
        | None => {| b_state := state'; b_rms := fst cur; b_calc := snd cur |}
        | Some b =>
            if JS.lt (fst cur) (b_rms b)
            then {| b_state := state'; b_rms := fst cur; b_calc := snd cur |}
            else b
        end in
      state'
      :: (if JS.lt (b_rms best') 1e-4 then []
          else magicStates M env locked targets n' state' (Some best'))
  end.

(** The state a magic result reports. *)
Definition reportedState (r : Result) : option MagicState :=
  match r with
  | ResMagic width_mm height_mm flow_m3s _ _ =>
      Some {| st_flow := flow_m3s; st_width := width_mm; st_height := height_mm |}
  | _ => None
  end.



(** * Binary64 facts

    Case analysis on the specification value [Prim2SF x] of a float; the
    primitive operations are related to it by the kernel's float axioms. *)

Module F64.

Lemma of_spec (x : float) (sf : spec_float) : Prim2SF x = sf -> x = SF2Prim sf.
Proof. intros H. rewrite <- H. symmetry. apply SF2Prim_Prim2SF. Qed.

Lemma is_nan_spec (x : float) :
  is_nan x = match Prim2SF x with S754_nan => true | _ => false end.
Proof.
  unfold is_nan. rewrite FloatAxioms.eqb_spec.
  destruct (Prim2SF x) as [s| s| |s m e]; try destruct s; try reflexivity;
    unfold SFeqb, SFcompare; rewrite Z.compare_refl, ?Pos.compare_cont_refl;
    reflexivity.
Qed.

Lemma is_zero_spec (x : float) :
  is_zero x = match Prim2SF x with S754_zero _ => true | _ => false end.
Proof.
  unfold is_zero. rewrite FloatAxioms.eqb_spec.
  change (Prim2SF zero) with (S754_zero false).
  destruct (Prim2SF x) as [s| s| |s m e]; try destruct s; reflexivity.
Qed.

Lemma is_infinity_spec (x : float) :
  is_infinity x = match Prim2SF x with S754_infinity _ => true | _ => false end.
Proof.
  unfold is_infinity. rewrite FloatAxioms.eqb_spec, FloatAxioms.abs_spec.
  change (Prim2SF infinity) with (S754_infinity false).
  destruct (Prim2SF x) as [s| s| |s m e]; try destruct s; reflexivity.
Qed.

Lemma is_finite_spec (x : float) :
  is_finite x =
  match Prim2SF x with S754_zero _ | S754_finite _ _ _ => true | _ => false end.
Proof.
  unfold is_finite. rewrite is_nan_spec, is_infinity_spec.
  destruct (Prim2SF x); reflexivity.
Qed.

(** NaN is a single value of the model. *)
Lemma nan_unique (x : float) : is_nan x = true -> x = nan.
Proof.
  rewrite is_nan_spec. intros H. apply (of_spec x S754_nan).
  destruct (Prim2SF x); try discriminate; reflexivity.
Qed.

Lemma zero_cases (x : float) : is_zero x = true -> x = zero \/ x = neg_zero.
Proof.
  rewrite is_zero_spec. intros H.
  destruct (Prim2SF x) as [s| s| |s m e] eqn:E; try discriminate.
  destruct s; [right | left]; exact (of_spec _ _ E).
Qed.

Lemma zeroOrNan_of_spec (x : float) :
  match Prim2SF x with S754_zero _ | S754_nan => True | _ => False end ->
  zeroOrNan x.
Proof.
  unfold zeroOrNan. destruct (Prim2SF x) as [s| s| |s m e] eqn:E; intros H;
    try contradiction.
  - destruct s; [right; left | left]; exact (of_spec _ _ E).
  - right; right; exact (of_spec _ _ E).
Qed.

Lemma zeroOrNan_spec (x : float) :
  zeroOrNan x ->
  match Prim2SF x with S754_zero _ | S754_nan => True | _ => False end.
Proof. intros [-> | [-> | ->]]; exact I. Qed.

Lemma mul_zeroOrNan_l (z x : float) : zeroOrNan z -> zeroOrNan (z * x).
Proof.
  intros Hz. apply zeroOrNan_of_spec. rewrite FloatAxioms.mul_spec.
  apply zeroOrNan_spec in Hz.
  destruct (Prim2SF z) as [s| s| |s m e]; try contradiction;
    destruct (Prim2SF x) as [s'| s'| |s' m' e']; exact I.
Qed.

Lemma mul_zeroOrNan_r (x z : float) : zeroOrNan z -> zeroOrNan (x * z).
Proof.
  intros Hz. apply zeroOrNan_of_spec. rewrite FloatAxioms.mul_spec.
  apply zeroOrNan_spec in Hz.
  destruct (Prim2SF z) as [s| s| |s m e]; try contradiction;
    destruct (Prim2SF x) as [s'| s'| |s' m' e']; exact I.
Qed.

Lemma div_1000_zeroOrNan (z : float) : zeroOrNan z -> zeroOrNan (z / 1000).
Proof.
  intros [-> | [-> | ->]]; vm_compute; auto.
Qed.

Lemma mul_nan_l (x : float) : nan * x = nan.
Proof.
  apply (of_spec _ S754_nan). rewrite FloatAxioms.mul_spec.
  change (Prim2SF nan) with S754_nan. reflexivity.
Qed.

Lemma mul_nan_r (x : float) : x * nan = nan.
Proof.
  apply (of_spec _ S754_nan). rewrite FloatAxioms.mul_spec.
  change (Prim2SF nan) with S754_nan. destruct (Prim2SF x); reflexivity.
Qed.

Lemma div_nan_l (x : float) : nan / x = nan.
Proof.
  apply (of_spec _ S754_nan). rewrite FloatAxioms.div_spec.
  change (Prim2SF nan) with S754_nan. reflexivity.
Qed.

Lemma div_nan_r (x : float) : x / nan = nan.
Proof.
  apply (of_spec _ S754_nan). rewrite FloatAxioms.div_spec.
  change (Prim2SF nan) with S754_nan. destruct (Prim2SF x); reflexivity.
Qed.

Lemma add_nan_r (x : float) : x + nan = nan.
Proof.
  apply (of_spec _ S754_nan). rewrite FloatAxioms.add_spec.
  change (Prim2SF nan) with S754_nan. destruct (Prim2SF x); reflexivity.
Qed.

End F64.

(** * The evaluator on degenerate geometry (claim C8) *)

Section Boundary.

Variable M : MathLib.

Lemma area_of_zeroOrNan (z : float) :
  zeroOrNan z -> JS.gt (JS.max2 0 z) 0 = false.
Proof. intros [-> | [-> | ->]]; reflexivity. Qed.

Lemma area_zero_width (w h : float) :
  is_zero w = true -> JS.gt (rectArea_m2_from_mm w h) 0 = false.
Proof.
  intros Hw. unfold rectArea_m2_from_mm. apply area_of_zeroOrNan.
  apply F64.mul_zeroOrNan_l, F64.div_1000_zeroOrNan.
  destruct (F64.zero_cases w Hw) as [-> | ->]; [left | right; left]; reflexivity.
Qed.

Lemma area_zero_height (w h : float) :
  is_zero h = true -> JS.gt (rectArea_m2_from_mm w h) 0 = false.
Proof.
  intros Hh. unfold rectArea_m2_from_mm. apply area_of_zeroOrNan.
  apply F64.mul_zeroOrNan_r, F64.div_1000_zeroOrNan.
  destruct (F64.zero_cases h Hh) as [-> | ->]; [left | right; left]; reflexivity.
Qed.

(** With no area, the evaluator takes the degenerate branch everywhere. *)
Lemma calc_no_area (w h Q T RH : float) (mat : string) :
  JS.gt (rectArea_m2_from_mm w h) 0 = false ->
  let c := calcRectNums M w h Q T RH mat in
  V c = 0 /\ Dh c = 0 /\ dp_per_m c = infinity
  /\ Re c = (rho c * 0 * 0) / mu c.
Proof.
  intros HA. unfold calcRectNums. cbn [V Dh dp_per_m Re rho mu].
  rewrite HA. repeat split; reflexivity.
Qed.

Lemma zero_quotient (r m : float) :
  let q := (r * 0 * 0) / m in
  is_zero q = is_finite r && negb (is_nan m) && negb (is_zero m)
  /\ is_nan q = negb (is_zero q).
Proof.
  cbv zeta. rewrite !F64.is_zero_spec, !F64.is_nan_spec, F64.is_finite_spec.
  rewrite FloatAxioms.div_spec, !FloatAxioms.mul_spec.
  change (Prim2SF 0) with (S754_zero false).
  destruct (Prim2SF r) as [s| s| |s mr er];
    destruct (Prim2SF m) as [s'| s'| |s' mm em]; split; reflexivity.
Qed.

Lemma haaland_nan (Re eps_over_D : float) :
  JS.le Re 0 = true \/ JS.isFinite Re = false ->
  haalandFrictionFactor M Re eps_over_D = nan.
Proof.
  intros H. unfold haalandFrictionFactor.
  destruct H as [H | H]; rewrite H; [rewrite orb_true_r | ]; reflexivity.
Qed.

End Boundary.

(** * Air at absolute zero

    At [T = -273.15] and [RH = 0] the density is [0/0] whatever the math
    library returns, and every quantity derived from it is undefined. *)

Section AbsoluteZero.

Variable M : MathLib.

Lemma zeroOrNan_div_zero (z : float) : zeroOrNan z -> z / 0 = nan.
Proof. intros [-> | [-> | ->]]; reflexivity. Qed.

Lemma density_nan_at_absolute_zero (p : float) :
  moistAirDensity M p (-273.15) 0 = nan.
Proof.
  unfold moistAirDensity. cbv zeta.
  assert (E0 : -273.15 + 273.15 = 0) by reflexivity. rewrite E0.
  assert (E1 : 287.058 * 0 = 0) by reflexivity. rewrite E1.
  assert (E2 : 461.495 * 0 = 0) by reflexivity. rewrite E2.
  assert (E3 : 0 / 100 = 0) by reflexivity. rewrite E3.
  rewrite (zeroOrNan_div_zero (0 * saturationVaporPressurePa M (-273.15))).
  - apply F64.add_nan_r.
  - apply F64.mul_zeroOrNan_l. left; reflexivity.
Qed.

(** An undefined density leaves the Reynolds number undefined and the
    pressure drop non-finite, on every geometry and flow. *)
Lemma calc_density_nan (w h Q T RH : float) (mat : string) :
  moistAirDensity M 101325 T RH = nan ->
  let c := calcRectNums M w h Q T RH mat in
  Re c = nan /\ (dp_per_m c = nan \/ dp_per_m c = infinity).
Proof.
  intros Hrho. unfold calcRectNums. cbn [Re dp_per_m]. rewrite Hrho.
  rewrite !F64.mul_nan_l, F64.div_nan_l. split; [reflexivity|].
  destruct (JS.gt _ 0); [left | right; reflexivity].
  unfold haalandFrictionFactor.
  change (negb (JS.isFinite nan) || JS.le nan 0) with true. cbv iota.
  rewrite F64.mul_nan_l. apply F64.div_nan_l.
Qed.

Lemma dp_not_finite_at_absolute_zero (w h Q : float) (mat : string) :
  JS.isFinite (dp_per_m (calcRectNums M w h Q (-273.15) 0 mat)) = false.
Proof.
  destruct (calc_density_nan w h Q (-273.15) 0 mat
              (density_nan_at_absolute_zero 101325)) as [_ [E | E]];
    rewrite E; reflexivity.
Qed.

End AbsoluteZero.

(** * Claim C8: boundary degeneracy *)

(** C8 (as amended).  For every flow, temperature, relative humidity and
    material, a geometry whose width or height is zero has velocity 0 and
    pressure drop per metre +infinity; its Reynolds number is 0 exactly when
    the air density is finite and the viscosity is neither NaN nor 0, and
    NaN otherwise.  The friction factor is NaN for every Reynolds number
    that is [<= 0] or not finite, whatever the relative roughness. *)
Theorem boundary_degeneracy (M : MathLib) (w h Q T RH : float) (mat : string) :
  is_zero w = true \/ is_zero h = true ->
  let c := calcRectNums M w h Q T RH mat in
  V c = 0
  /\ dp_per_m c = infinity
  /\ is_zero (Re c)
     = is_finite (rho c) && negb (is_nan (mu c)) && negb (is_zero (mu c))
  /\ is_nan (Re c) = negb (is_zero (Re c))
  /\ (forall Re eps_over_D : float,
        JS.le Re 0 = true \/ JS.isFinite Re = false ->
        haalandFrictionFactor M Re eps_over_D = nan).
Proof.
  intros Hz c.
  assert (HA : JS.gt (rectArea_m2_from_mm w h) 0 = false).
  { destruct Hz; [apply area_zero_width | apply area_zero_height]; assumption. }
  destruct (calc_no_area M w h Q T RH mat HA) as (HV & _ & Hdp & HRe).
  fold c in HV, Hdp, HRe.
  destruct (zero_quotient (rho c) (mu c)) as [Hq1 Hq2].
  rewrite HRe. repeat split; try assumption.
  intros Re' eps H. exact (haaland_nan M Re' eps H).
Qed.

(** A zero-width duct in office air: velocity 0, Reynolds 0, infinite drop. *)
Lemma boundary_degeneracy_witness :
  is_zero 0 = true
  /\ let c := calcRectNums SampleMath.lib 0 200 0.1 20 50 "Galvanised steel" in
     V c = 0 /\ dp_per_m c = infinity /\ is_zero (Re c) = true.
Proof.
  split; [reflexivity|].
  destruct (boundary_degeneracy SampleMath.lib 0 200 0.1 20 50 "Galvanised steel"
              (or_introl eq_refl)) as (HV & Hdp & HRe & _).
  cbv zeta. split; [exact HV|]. split; [exact Hdp|].
  rewrite HRe. vm_compute. reflexivity.
Defined.

(** C8 as stated fails: at [T = -273.15], [RH = 0] the Reynolds number of a
    zero-width duct is NaN, not 0, for every math library. *)
Lemma boundary_reynolds_counterexample :
  is_zero 0 = true
  /\ forall M : MathLib,
       let c := calcRectNums M 0 200 0.1 (-273.15) 0 "Galvanised steel" in
       Re c = nan /\ is_zero (Re c) = false.
Proof.
  split; [reflexivity|]. intros M c.
  destruct (calc_density_nan M 0 200 0.1 (-273.15) 0 "Galvanised steel"
              (density_nan_at_absolute_zero M 101325)) as [E _].
  fold c in E. rewrite E. split; reflexivity.
Qed.

(** * Magic mode: the search and its outcome (claims C1, C2, C7) *)

Section MagicFacts.

Variable M : MathLib.
Variable env : Env.
Variable locked : Locks.
Variable targets : Targets.

Lemma magicLoop_best (n : nat) :
  forall (state : MagicState) (best : option MagicBest),
    (forall b, best = Some b -> bestOk M env locked targets b) ->
    match magicLoop M env locked targets n state best with
    | Some b => bestOk M env locked targets b
    | None => best = None /\ n = O
    end.
Proof.
  induction n as [|n IH]; intros state best Hbest; cbn [magicLoop].
  - destruct best as [b|]; [apply Hbest; reflexivity | split; reflexivity].
  - set (state' := magicRound M env locked targets state).
    set (cur := residuals M env locked targets state').
    set (fresh := {| b_state := state'; b_rms := fst cur; b_calc := snd cur |}).
    assert (Hfresh : bestOk M env locked targets fresh) by (split; reflexivity).
    set (best' := match best with
                  | None => fresh
                  | Some b => if JS.lt (fst cur) (b_rms b) then fresh else b
                  end).
    assert (Hbest' : bestOk M env locked targets best').
    { unfold best'. destruct best as [b|]; [|exact Hfresh].
      destruct (JS.lt (fst cur) (b_rms b)); [exact Hfresh|].
      apply Hbest; reflexivity. }
    destruct (JS.lt (b_rms best') 1e-4); [exact Hbest'|].
    specialize (IH state' (Some best')).
    destruct (magicLoop M env locked targets n state' (Some best')) as [b|].
    + apply IH. intros b' Hb'. injection Hb' as <-. exact Hbest'.
    + destruct IH as [Habs _]; [|discriminate Habs].
      intros b' Hb'. injection Hb' as <-. exact Hbest'.
Qed.

(** The loop runs at least once, so it never ends without a best entry. *)
Lemma magicLoop_some (n : nat) (state : MagicState) :
  exists b, magicLoop M env locked targets (S n) state None = Some b /\ bestOk M env locked targets b.
Proof.
  pose proof (magicLoop_best (S n) state None) as H.
  destruct (magicLoop M env locked targets (S n) state None) as [b|].
  - exists b. split; [reflexivity|]. apply H. intros b' Hb'. discriminate Hb'.
  - destruct H as [_ Habs]; [|discriminate Habs].
    intros b' Hb'. discriminate Hb'.
Qed.

(** The inner loop over the two directions, unrolled. *)
Lemma bestLocal_unrolled (base : MagicState) (v : Var) :
  let down := trialOf base v (1 / stepFactors v) in
  let up := trialOf base v (stepFactors v) in
  let rdown := rms M env locked targets down in
  let rup := rms M env locked targets up in
  fst (bestLocal M env locked targets base v)
  = if JS.lt rdown infinity
    then (if JS.lt rup rdown then getVar v up else getVar v down)
    else (if JS.lt rup infinity then getVar v up else getVar v base).
Proof.
  cbv zeta. unfold bestLocal, directions. cbn [fold_left snd].
  destruct (JS.lt (rms M env locked targets
                     (trialOf base v (1 / stepFactors v))) infinity);
    cbn [snd fst];
    match goal with
    | |- context [JS.lt ?a ?b] => destruct (JS.lt a b)
    end; reflexivity.
Qed.

End MagicFacts.

(** The search of magic mode always ends with a best entry. *)
Lemma magicSearch_some (M : MathLib) (env : Env)
    (w_mm h_mm velocityVal targetDpVal : float) :
  exists b,
    magicSearch M env w_mm h_mm velocityVal targetDpVal = Some b
    /\ bestOk M env (magicLocks env)
         (magicTargets env w_mm h_mm velocityVal targetDpVal) b.
Proof. unfold magicSearch. cbv zeta. apply magicLoop_some. Qed.

Lemma lockedCount_bounds (locked : Locks) : (lockedCount locked <= 5)%nat.
Proof. destruct locked as [[] [] [] [] []]; cbv; lia. Qed.

(** C7.  In magic mode, with 4 or 5 constraints locked no result is set and
    the warnings are the "too many locked fields" message alone; with fewer
    than 2 locked no result is set and the warnings are one "not enough
    constraints" message, naming the needed input: the width if it is not
    locked, else the height, else flow-or-velocity when neither is locked,
    else the generic message.  In both cases nothing is written back to the
    inputs and the stale flag is left as it was. *)
Theorem magic_lock_count_policy (M : MathLib) (env : Env)
    (w_mm h_mm flowInputVal velocityVal targetDpVal : float) :
  mode env = magic ->
  let out := runSolverWithValues M env w_mm h_mm flowInputVal velocityVal targetDpVal in
  let locked := magicLocks env in
  ((4 <= lockedCount locked)%nat ->
     results out = None
     /\ warnings out
        = ["Too many locked fields — unlock one to allow solving."%string]
     /\ writeBack out = None
     /\ staleCleared out = false)
  /\ ((lockedCount locked < 2)%nat ->
      exists suggestion : string,
        results out = None
        /\ warnings out
           = [("Not enough constraints — " ++ suggestion ++ ".")%string]
        /\ writeBack out = None
        /\ staleCleared out = false
        /\ (lk_width locked = false -> suggestion = "Enter duct width"%string)
        /\ (lk_width locked = true -> lk_height locked = false ->
            suggestion = "Enter duct height"%string)
        /\ (lk_width locked = true -> lk_height locked = true ->
            lk_flow locked = false -> lk_velocity locked = false ->
            suggestion = "Enter flow rate or velocity"%string)
        /\ (lk_width locked = true -> lk_height locked = true ->
            lk_flow locked = true \/ lk_velocity locked = true ->
            suggestion = "Provide additional locked input"%string)).
Proof.
  intros Hmode out locked. unfold out, runSolverWithValues, magicMode.
  rewrite Hmode. fold locked. split.
  - intros H. apply Nat.leb_le in H. rewrite H.
    repeat split; reflexivity.
  - intros H.
    assert (H4 : (4 <=? lockedCount locked)%nat = false)
      by (apply Nat.leb_gt; lia).
    apply Nat.ltb_lt in H. rewrite H4, H.
    exists (magicSuggestion locked).
    do 4 (split; [reflexivity|]).
    unfold magicSuggestion.
    repeat split; intros; repeat match goal with
                                 | E : _ = true |- _ => rewrite E
                                 | E : _ = false |- _ => rewrite E
                                 end; try reflexivity.
    destruct (lk_flow locked), (lk_velocity locked); try reflexivity.
    destruct H2; discriminate.
Qed.

(** Four locks are refused; the width alone asks for the height. *)
Lemma magic_lock_count_policy_witness :
  (let out := runSolverWithValues SampleMath.lib (officeEnv magic locksAllButDp)
                200 200 100 2.5 1 in
   results out = None
   /\ warnings out
      = ["Too many locked fields — unlock one to allow solving."%string]
   /\ writeBack out = None
   /\ staleCleared out = false)
  /\ (let out := runSolverWithValues SampleMath.lib (officeEnv magic locksWidthOnly)
                   200 200 100 2.5 1 in
      results out = None
      /\ warnings out = ["Not enough constraints — Enter duct height."%string]
      /\ writeBack out = None
      /\ staleCleared out = false).
Proof.
  split.
  - apply (magic_lock_count_policy SampleMath.lib (officeEnv magic locksAllButDp)
             200 200 100 2.5 1 eq_refl).
    cbv. lia.
  - destruct (magic_lock_count_policy SampleMath.lib (officeEnv magic locksWidthOnly)
                200 200 100 2.5 1 eq_refl) as [_ H].
    destruct H as (s & Hres & Hwarn & Hwb & Hst & _ & Hh & _); [cbv; lia|].
    rewrite (Hh eq_refl eq_refl) in Hwarn.
    cbv zeta. repeat split; assumption.
Defined.

(** With 2 or 3 locks, magic mode reports the state of the best entry. *)
Lemma magicMode_reports (M : MathLib) (env : Env)
    (w_mm h_mm velocityVal targetDpVal : float) :
  (2 <= lockedCount (magicLocks env) <= 3)%nat ->
  exists best : MagicBest,
    magicSearch M env w_mm h_mm velocityVal targetDpVal = Some best
    /\ bestOk M env (magicLocks env)
         (magicTargets env w_mm h_mm velocityVal targetDpVal) best
    /\ magicMode M env w_mm h_mm velocityVal targetDpVal
       = let s := b_state best in
         let c := evalAt M env (st_width s) (st_height s) (st_flow s) in
         {| results := Some (ResMagic (st_width s) (st_height s) (st_flow s)
                               (V c) (dp_per_m c));
            warnings := [];
            writeBack := Some (st_width s, st_height s, st_flow s);
            staleCleared := true |}.
Proof.
  intros [H2 H3].
  assert (E4 : (4 <=? lockedCount (magicLocks env))%nat = false)
    by (apply Nat.leb_gt; lia).
  assert (E2 : (lockedCount (magicLocks env) <? 2)%nat = false)
    by (apply Nat.ltb_ge; lia).
  destruct (magicSearch_some M env w_mm h_mm velocityVal targetDpVal)
    as (best & Hsearch & Hok).
  exists best. split; [exact Hsearch|]. split; [exact Hok|].
  unfold magicMode. rewrite E4, E2, Hsearch. reflexivity.
Qed.

(** * Claim C1: the outcome of a well-posed magic solve *)

(** C1 (as amended).  For every magic-mode solve with exactly 2 or 3
    constraints locked, the outcome is never both a result and the "failed
    to converge" warning.  The search always ends with a best entry whose
    RMS is the residual of the state it holds; when that RMS is finite the
    outcome is a result reporting that state (with the evaluator's velocity
    and pressure drop there) and no warning, whether or not the RMS is
    below 1e-4. *)
Theorem magic_best_effort (M : MathLib) (env : Env)
    (w_mm h_mm flowInputVal velocityVal targetDpVal : float) :
  mode env = magic ->
  (2 <= lockedCount (magicLocks env) <= 3)%nat ->
  let out := runSolverWithValues M env w_mm h_mm flowInputVal velocityVal targetDpVal in
  ~ (results out <> None /\ In warnFailedToConverge (warnings out))
  /\ exists best : MagicBest,
       magicSearch M env w_mm h_mm velocityVal targetDpVal = Some best
       /\ b_rms best
          = rms M env (magicLocks env)
              (magicTargets env w_mm h_mm velocityVal targetDpVal) (b_state best)
       /\ (JS.isFinite (b_rms best) = true ->
           let s := b_state best in
           let c := evalAt M env (st_width s) (st_height s) (st_flow s) in
           results out
           = Some (ResMagic (st_width s) (st_height s) (st_flow s) (V c) (dp_per_m c))
           /\ warnings out = []).
Proof.
  intros Hmode Hcount out.
  destruct (magicMode_reports M env w_mm h_mm velocityVal targetDpVal Hcount)
    as (best & Hsearch & [Hrms _] & Hmagic).
  assert (Hout : out = magicMode M env w_mm h_mm velocityVal targetDpVal).
  { unfold out, runSolverWithValues. rewrite Hmode. reflexivity. }
  rewrite Hmagic in Hout. split.
  - rewrite Hout. cbn [warnings]. intros [_ []].
  - exists best. split; [exact Hsearch|]. split; [exact Hrms|].
    intros _. rewrite Hout. split; reflexivity.
Qed.

(** Width 200 mm, height 200 mm and velocity 2.5 m/s locked: the search
    returns the starting flow. *)
Lemma magic_best_effort_witness :
  exists best : MagicBest,
    magicSearch SampleMath.lib (officeEnv magic locksWidthHeightVelocity)
      200 200 2.5 1 = Some best
    /\ JS.isFinite (b_rms best) = true
    /\ warnings (runSolverWithValues SampleMath.lib
                   (officeEnv magic locksWidthHeightVelocity) 200 200 100 2.5 1) = [].
Proof.
  destruct (magic_best_effort SampleMath.lib (officeEnv magic locksWidthHeightVelocity)
              200 200 100 2.5 1 eq_refl) as [_ (best & Hs & Hr & Hres)].
  - cbv. lia.
  - exists best. split; [exact Hs|].
    assert (Hfin : JS.isFinite (b_rms best) = true).
    { assert (E : option_map (fun b => JS.isFinite (b_rms b))
                    (magicSearch SampleMath.lib
                       (officeEnv magic locksWidthHeightVelocity) 200 200 2.5 1)
                  = Some true) by (vm_compute; reflexivity).
      rewrite Hs in E. injection E as E. exact E. }
    split; [exact Hfin|]. exact (proj2 (Hres Hfin)).
Defined.

(** C1 as stated fails.  With width 200 mm, height 200 mm and velocity
    3 m/s locked, the flow moves on the grid [0.1 * 1.1^k]; the best RMS
    over the 200 rounds is about 4.8e-3, and the outcome is a result with no
    warning, whatever the math library. *)
Lemma magic_unconverged_result_counterexample :
  lockedCount locksWidthHeightVelocity = 3%nat
  /\ forall M : MathLib,
       let env := officeEnv magic locksWidthHeightVelocity in
       let out := runSolverWithValues M env 200 200 100 3 1 in
       option_map b_rms (magicSearch M env 200 200 3 1)
       = Some 0.0048112522432468647
       /\ JS.lt 0.0048112522432468647 1e-4 = false
       /\ results out <> None
       /\ warnings out = [].
Proof.
  split; [reflexivity|]. intros M env out.
  split; [vm_compute; reflexivity|].
  split; [reflexivity|].
  destruct (magicMode_reports M env 200 200 3 1) as (best & _ & _ & Hmagic).
  { cbv. lia. }
  assert (Hout : out = magicMode M env 200 200 3 1) by reflexivity.
  rewrite Hmagic in Hout. rewrite Hout.
  split; [discriminate | reflexivity].
Qed.

(** * Claim C2: one descent step *)

(** C2 (as amended).  A round updates flow, width and height in that order,
    leaving a locked variable alone.  For an unlocked variable the solver
    evaluates the RMS residual of the two floored perturbations (the current
    value times [1/step], then times [step], with step 1.1 for flow and 1.05
    for width and height) and moves to whichever has the lower RMS, the
    first on a tie; the original value's RMS is never consulted, and the
    original value is kept only when neither perturbation has an RMS below
    +infinity. *)
Theorem magic_descent_step (M : MathLib) (env : Env) (locked : Locks)
    (targets : Targets) (state : MagicState) (v : Var) :
  let down := trialOf state v (1 / stepFactors v) in
  let up := trialOf state v (stepFactors v) in
  let rdown := rms M env locked targets down in
  let rup := rms M env locked targets up in
  updateVar M env locked targets state v
  = (if isLocked locked v then state
     else setVar v
            (if JS.lt rdown infinity
             then (if JS.lt rup rdown then getVar v up else getVar v down)
             else (if JS.lt rup infinity then getVar v up else getVar v state))
            state)
  /\ magicRound M env locked targets state
     = updateVar M env locked targets
         (updateVar M env locked targets
            (updateVar M env locked targets state VFlow) VWidth) VHeight.
Proof.
  cbv zeta. split; [|reflexivity].
  unfold updateVar. destruct (isLocked locked v); [reflexivity|].
  rewrite bestLocal_unrolled. reflexivity.
Qed.

(** C2 as stated fails.  With width 200 mm, height 200 mm and velocity
    2.5 m/s locked and the flow at 0.1 m3/s, the original RMS (about 1e-16)
    is below the RMS of both perturbations, yet the step moves the flow to
    0.0909 m3/s, whatever the math library. *)
Lemma magic_step_ignores_original_counterexample :
  isLocked locksWidthHeightVelocity VFlow = false
  /\ forall M : MathLib,
       let env := officeEnv magic locksWidthHeightVelocity in
       let targets := magicTargets env 200 200 2.5 1 in
       let state := magicInit targets in
       let r := rms M env locksWidthHeightVelocity targets in
       st_flow state = 0.1
       /\ JS.lt (r state) (r (trialOf state VFlow (1 / 1.1))) = true
       /\ JS.lt (r state) (r (trialOf state VFlow 1.1)) = true
       /\ st_flow (updateVar M env locksWidthHeightVelocity targets state VFlow)
          = 0.090909090909090912.
Proof.
  split; [reflexivity|]. intros M env targets state r.
  repeat split; vm_compute; reflexivity.
Qed.

(** * The bisection solvers (claims C5, C6) *)

Module F64Order.

Lemma SFcompare_swap (x y : spec_float) :
  SFcompare y x = option_map CompOpp (SFcompare x y).
Proof.
  destruct x as [sx| sx| |sx mx ex], y as [sy| sy| |sy my ey];
    try destruct sx; try destruct sy; try reflexivity;
    cbn [SFcompare option_map]; f_equal;
    rewrite (Z.compare_antisym ex ey);
    destruct (Z.compare ex ey); cbn [CompOpp]; try reflexivity;
    pose proof (Pos.compare_cont_antisym mx my Eq) as H; cbn [CompOpp] in H;
    rewrite <- H; destruct (Pos.compare_cont Eq mx my); reflexivity.
Qed.

(** On numbers (no NaN), "not greater" is "less or equal". *)
Lemma le_of_not_gt (x y : float) :
  is_nan x = false -> is_nan y = false ->
  JS.gt x y = false -> JS.le x y = true.
Proof.
  unfold JS.gt, JS.le. rewrite !F64.is_nan_spec.
  rewrite FloatAxioms.ltb_spec, FloatAxioms.leb_spec.
  unfold SFltb, SFleb. rewrite (SFcompare_swap (Prim2SF x) (Prim2SF y)).
  destruct (Prim2SF x) as [sx| sx| |sx mx ex] eqn:Ex;
    destruct (Prim2SF y) as [sy| sy| |sy my ey] eqn:Ey;
    intros Hx Hy; try discriminate;
    destruct (SFcompare _ _) as [[]|] eqn:Ec; cbn [option_map CompOpp];
    intros H; try discriminate; try reflexivity;
    try destruct sx; try destruct sy; cbn in Ec; try discriminate.
Qed.

Lemma finite_not_nan (x : float) : JS.isFinite x = true -> is_nan x = false.
Proof.
  unfold JS.isFinite. rewrite F64.is_finite_spec, F64.is_nan_spec.
  destruct (Prim2SF x); intros H; try discriminate; reflexivity.
Qed.

Lemma safeNum_finite (v d : float) :
  JS.isFinite d = true -> JS.isFinite (safeNum v d) = true.
Proof.
  intros Hd. unfold safeNum. destruct (JS.isFinite v) eqn:E; assumption.
Qed.

End F64Order.

Section FlowLoopFacts.

Variable M : MathLib.
Variable env : Env.
Variables w h target : float.

(** The loop returns the flow of the last feasible trial, or the flow it
    started from when there is none. *)
Lemma flowLoop_last_feasible (n : nat) :
  forall lo hi bestQ : float,
    flowLoop M env w h target n lo hi bestQ
    = fold_left (fun acc trial => if feasible target trial then fst trial else acc)
        (flowTrials M env w h target n lo hi) bestQ.
Proof.
  induction n as [|n IH]; intros lo hi bestQ; [reflexivity|].
  cbn [flowLoop flowTrials].
  set (mid := 0.5 * (lo + hi)).
  set (dp := dp_per_m (evalAt M env (mToMm w) (mToMm h) mid)).
  destruct (JS.isFinite dp) eqn:Efin; cbn [negb].
  - cbn [fold_left]. unfold feasible at 2. cbn [snd fst]. rewrite Efin.
    cbn [andb]. destruct (withinTol dp target).
    + destruct (JS.gt dp target); reflexivity.
    + rewrite IH. destruct (JS.gt dp target); reflexivity.
  - cbn [fold_left]. unfold feasible. cbn [snd]. rewrite Efin. reflexivity.
Qed.

Lemma flowTrials_evaluated (n : nat) :
  forall (lo hi : float) (trial : float * float),
    In trial (flowTrials M env w h target n lo hi) ->
    snd trial = dp_per_m (evalAt M env (mToMm w) (mToMm h) (fst trial)).
Proof.
  induction n as [|n IH]; intros lo hi trial; cbn [flowTrials]; [intros []|].
  destruct (negb (JS.isFinite _)).
  - intros [<- | []]. reflexivity.
  - intros [<- | Hin]; [reflexivity|].
    destruct (withinTol _ target); [destruct Hin|].
    exact (IH _ _ _ Hin).
Qed.

Lemma fold_last_feasible (trials : list (float * float)) :
  forall bestQ : float,
    let q := fold_left
               (fun acc trial => if feasible target trial then fst trial else acc)
               trials bestQ in
    q = bestQ
    \/ exists trial, In trial trials /\ feasible target trial = true /\ q = fst trial.
Proof.
  induction trials as [|t ts IH]; intros bestQ; cbn [fold_left]; [left; reflexivity|].
  destruct (IH (if feasible target t then fst t else bestQ)) as [E | (p & Hin & Hf & E)].
  - destruct (feasible target t) eqn:Ef.
    + right. exists t. split; [left; reflexivity|]. split; assumption.
    + left. exact E.
  - right. exists p. split; [right; exact Hin|]. split; assumption.
Qed.


End FlowLoopFacts.

(** The evaluator reads a dimension only through its value in metres. *)
Lemma calcRectNums_metres (M : MathLib) (w1 h1 w2 h2 Q T RH : float) (mat : string) :
  mmToM w1 = mmToM w2 -> mmToM h1 = mmToM h2 ->
  calcRectNums M w1 h1 Q T RH mat = calcRectNums M w2 h2 Q T RH mat.
Proof.
  unfold mmToM. intros Hw Hh.
  unfold calcRectNums, rectArea_m2_from_mm, rectPerimeter_m_from_mm.
  rewrite Hw, Hh. reflexivity.
Qed.

Lemma solveMaxFlow_some (M : MathLib) (env : Env) (w_mm h_mm t q : float) :
  solveMaxFlow M env w_mm h_mm t = Some q ->
  JS.le (mmToM (safeNum w_mm 0)) 0 = false
  /\ JS.le (mmToM (safeNum h_mm 0)) 0 = false
  /\ JS.le (safeNum t 0) 0 = false
  /\ q = flowLoop M env (mmToM (safeNum w_mm 0)) (mmToM (safeNum h_mm 0))
           (safeNum t 0) 80 1e-6 10 0.
Proof.
  unfold solveMaxFlow. cbv zeta.
  set (r := flowLoop M env _ _ _ 80 1e-6 10 0). clearbody r.
  destruct (JS.le (mmToM (safeNum w_mm 0)) 0); [discriminate|].
  destruct (JS.le (mmToM (safeNum h_mm 0)) 0); [discriminate|].
  destruct (JS.le (safeNum t 0) 0); [discriminate|].
  cbn [orb]. intros H. injection H as <-. repeat split; reflexivity.
Qed.

(** A dimension that passes the guard is a finite number. *)
Lemma guard_passed_finite (x : float) :
  JS.le (mmToM (safeNum x 0)) 0 = false -> safeNum x 0 = x.
Proof.
  unfold safeNum. destruct (JS.isFinite x); [reflexivity|].
  intros H. discriminate H.
Qed.

Lemma target_passed_finite (t : float) :
  JS.le (safeNum t 0) 0 = false -> safeNum t 0 = t /\ JS.isFinite t = true.
Proof.
  unfold safeNum. destruct (JS.isFinite t); [split; reflexivity|].
  intros H. discriminate H.
Qed.

(** A non-finite first trial ends the loop with the flow it started from. *)
Lemma flowLoop_abort (M : MathLib) (env : Env) (w h target : float) (n : nat)
    (lo hi bestQ : float) :
  JS.isFinite
    (dp_per_m (evalAt M env (mToMm w) (mToMm h) (0.5 * (lo + hi)))) = false ->
  flowLoop M env w h target (S n) lo hi bestQ = bestQ.
Proof. intros H. cbn [flowLoop]. rewrite H. reflexivity. Qed.

Lemma evalAt_absolute_zero (M : MathLib) (m : Mode) (locks : Locks)
    (w h Q : float) :
  JS.isFinite (dp_per_m (evalAt M (absoluteZeroEnv m locks) w h Q)) = false.
Proof. exact (dp_not_finite_at_absolute_zero M w h Q "Galvanised steel"). Qed.

(** At absolute zero the first trial is already undefined: the solver
    returns the flow 0 for every geometry and target that pass its guard. *)
Lemma solveMaxFlow_absolute_zero (M : MathLib) (m : Mode) (locks : Locks)
    (w_mm h_mm t : float) :
  JS.le (mmToM (safeNum w_mm 0)) 0 || JS.le (mmToM (safeNum h_mm 0)) 0
    || JS.le (safeNum t 0) 0 = false ->
  solveMaxFlow M (absoluteZeroEnv m locks) w_mm h_mm t = Some 0.
Proof.
  intros Hguard. unfold solveMaxFlow. cbv zeta. rewrite Hguard.
  f_equal. apply (flowLoop_abort M (absoluteZeroEnv m locks) _ _ _ 79).
  apply evalAt_absolute_zero.
Qed.

(** * Claim C6: what [solveMaxFlow] returns on failure *)




(** * Claim C5: feeding the maximum flow back *)

(** Whenever [solveMaxFlow] returns a flow, it is either the flow 0 (no
    feasible trial was recorded) or a flow whose pressure drop, evaluated
    at the geometry the solver used (the dimensions converted to metres and
    back), is a finite number not above the target; this is the
    evaluator's value at the given dimensions whenever they survive that
    conversion. *)
Theorem solveMaxFlow_feasible (M : MathLib) (env : Env)
    (w_mm h_mm targetDpPaPerM q : float) :
  solveMaxFlow M env w_mm h_mm targetDpPaPerM = Some q ->
  q = 0
  \/ (let c := evalAt M env (mToMm (mmToM w_mm)) (mToMm (mmToM h_mm)) q in
      JS.isFinite (dp_per_m c) = true
      /\ JS.le (dp_per_m c) targetDpPaPerM = true
      /\ (mmToM (mToMm (mmToM w_mm)) = mmToM w_mm ->
          mmToM (mToMm (mmToM h_mm)) = mmToM h_mm ->
          dp_per_m (evalAt M env w_mm h_mm q) = dp_per_m c)).
Proof.
  intros Hsome.
  destruct (solveMaxFlow_some M env w_mm h_mm targetDpPaPerM q Hsome)
    as (Hw & Hh & Ht & Hq).
  rewrite (guard_passed_finite w_mm Hw), (guard_passed_finite h_mm Hh) in Hq.
  destruct (target_passed_finite targetDpPaPerM Ht) as [Et Hfin].
  rewrite Et in Hq. rewrite flowLoop_last_feasible in Hq.
  destruct (fold_last_feasible targetDpPaPerM
              (flowTrials M env (mmToM w_mm) (mmToM h_mm) targetDpPaPerM 80 1e-6 10) 0)
    as [E | (trial & Hin & Hfeas & E)]; cbv zeta in E; rewrite <- Hq in E.
  - left. exact E.
  - right. cbv zeta. rewrite E.
    rewrite <- (flowTrials_evaluated M env _ _ _ _ _ _ trial Hin).
    unfold feasible in Hfeas. apply andb_true_iff in Hfeas.
    destruct Hfeas as [Hf Hng]. apply negb_true_iff in Hng.
    split; [exact Hf|]. split.
    + apply F64Order.le_of_not_gt; try assumption;
        apply F64Order.finite_not_nan; assumption.
    + intros Ew Eh. unfold evalAt.
      rewrite (calcRectNums_metres M w_mm h_mm
                 (mToMm (mmToM w_mm)) (mToMm (mmToM h_mm))); [|symmetry; assumption ..].
      symmetry.
      exact (flowTrials_evaluated M env _ _ _ _ _ _ trial Hin).
Qed.

(** A 200 mm square duct at 1 Pa/m in office air: about 152 L/s, and the
    pressure drop there is within the target. *)
Lemma solveMaxFlow_feasible_witness :
  solveMaxFlow SampleMath.lib (officeEnv maxFlow noLocks) 200 200 1
  = Some 0.15239814052200315
  /\ JS.le (dp_per_m (evalAt SampleMath.lib (officeEnv maxFlow noLocks)
                        200 200 0.15239814052200315)) 1 = true.
Proof.
  assert (Hs : solveMaxFlow SampleMath.lib (officeEnv maxFlow noLocks) 200 200 1
               = Some 0.15239814052200315) by (vm_compute; reflexivity).
  split; [exact Hs|].
  destruct (solveMaxFlow_feasible SampleMath.lib (officeEnv maxFlow noLocks)
              200 200 1 0.15239814052200315 Hs) as [E | (_ & Hle & Hsame)].
  - discriminate (f_equal is_zero E).
  - rewrite Hsame; [exact Hle | reflexivity | reflexivity].
Defined.

(** In air at absolute zero (and zero humidity) every evaluation is
    undefined: the solver returns the flow 0 for the targets 1 and 2 Pa/m
    alike, and the pressure drop fed back at that flow is not a number
    below the target plus tolerance.  This holds for every math library. *)
Lemma solveMaxFlow_absolute_zero_flows :
  JS.lt 1 2 = true
  /\ forall M : MathLib,
       let env := absoluteZeroEnv maxFlow noLocks in
       solveMaxFlow M env 200 200 1 = Some 0
       /\ solveMaxFlow M env 200 200 2 = Some 0
       /\ JS.lt 0 0 = false
       /\ JS.le (dp_per_m (evalAt M env 200 200 0)) (1 + 1e-4) = false.
Proof.
  split; [reflexivity|]. intros M env.
  split; [apply solveMaxFlow_absolute_zero; reflexivity|].
  split; [apply solveMaxFlow_absolute_zero; reflexivity|].
  split; [reflexivity|].
  destruct (calc_density_nan M 200 200 0 (-273.15) 0 "Galvanised steel"
              (density_nan_at_absolute_zero M 101325)) as [_ [E | E]];
    change (evalAt M env 200 200 0)
      with (calcRectNums M 200 200 0 (-273.15) 0 "Galvanised steel");
    rewrite E; reflexivity.
Qed.

(** C5 fails on ordinary air through the tolerance exit of the loop.  For
    a 200 mm square duct in office air and the target 1.0472 Pa/m, all six
    trials lie above the target, so none is recorded as the best flow; the
    sixth, 156.25 L/s at 1.047206 Pa/m, is within the relative tolerance
    1e-4 of the target, so the loop exits there and the flow returned is
    the initial 0.  Fed back, the flow 0 gives a pressure drop that is not
    a number, hence not within target plus tolerance; and the smaller
    target 1.0471 Pa/m returns 156.24 L/s, so raising the target lowered
    the flow.  The larger target 1.0473 Pa/m returns the very trial that
    was dropped.  ([solveMissingDimension] records a trial before its
    tolerance exit.) *)
Lemma solveMaxFlow_tolerance_exit_drops_flow :
  let env := officeEnv maxFlow noLocks in
  let target := 1.0472 in
  let trials :=
    flowTrials SampleMath.lib env (mmToM 200) (mmToM 200) target 80 1e-6 10 in
  trials
  = [ (5.0000004999999996, 869.48063833253616);
      (2.5000007499999999, 219.64128921765806);
      (1.250000875, 55.993212822477339);
      (0.62500093749999996, 14.495507694615638);
      (0.31250096875, 3.8396507243019018);
      (0.15625098437499998, 1.0472060361269457) ]
  /\ forallb (fun trial => JS.gt (snd trial) target) trials = true
  /\ withinTol 1.0472060361269457 target = true
  /\ solveMaxFlow SampleMath.lib env 200 200 target = Some 0
  /\ is_nan (dp_per_m (evalAt SampleMath.lib env 200 200 0)) = true
  /\ JS.le (dp_per_m (evalAt SampleMath.lib env 200 200 0)) (target + 1e-4) = false
  /\ JS.lt 1.0471 target = true
  /\ solveMaxFlow SampleMath.lib env 200 200 1.0471 = Some 0.15624144763278958
  /\ JS.gt 0 0.15624144763278958 = false
  /\ solveMaxFlow SampleMath.lib env 200 200 1.0473 = Some 0.15625098437499998
  /\ results (runSolverWithValues SampleMath.lib env 200 200 100 0 target)
     = Some (ResMaxFlowDp 200 200 (Some 0) 0 target).
Proof.
  cbv zeta. repeat split; vm_compute; reflexivity.
Qed.

(** * Solve-one-dimension mode (claims C9, C10) *)

Module F64Max.

Lemma truthy_spec (x : float) :
  JS.truthy x
  = match Prim2SF x with
    | S754_finite _ _ _ | S754_infinity _ => true
    | _ => false
    end.
Proof.
  unfold JS.truthy. rewrite F64.is_zero_spec, F64.is_nan_spec.
  destruct (Prim2SF x); reflexivity.
Qed.

Lemma positive_spec (x : float) :
  JS.gt x 0
  = match Prim2SF x with
    | S754_finite false _ _ | S754_infinity false => true
    | _ => false
    end.
Proof.
  unfold JS.gt. rewrite FloatAxioms.ltb_spec.
  change (Prim2SF 0) with (S754_zero false).
  destruct (Prim2SF x) as [s| s| |s m e]; try destruct s; reflexivity.
Qed.

(** A positive number is truthy and is not [<= 0]. *)
Lemma positive_present (x : float) :
  JS.gt x 0 = true -> JS.truthy x = true /\ JS.le x 0 = false.
Proof.
  rewrite positive_spec, truthy_spec. unfold JS.le.
  rewrite FloatAxioms.leb_spec. change (Prim2SF 0) with (S754_zero false).
  destruct (Prim2SF x) as [s| s| |s m e]; try destruct s; intros H;
    try discriminate; split; reflexivity.
Qed.

(** [Math.max(-Infinity, x)] is [x] for a finite [x]. *)
Lemma max2_neg_infinity (x : float) :
  JS.isFinite x = true -> JS.max2 neg_infinity x = x.
Proof.
  unfold JS.isFinite, JS.max2. rewrite F64.is_finite_spec.
  rewrite (F64.is_nan_spec x), FloatAxioms.ltb_spec.
  change (is_nan neg_infinity) with false.
  change (Prim2SF neg_infinity) with (S754_infinity true).
  destruct (Prim2SF x) as [s| s| |s m e]; intros H; try discriminate;
    reflexivity.
Qed.

(** [Math.max] returns one of its arguments when neither is NaN. *)
Lemma max2_either (a b : float) :
  is_nan a = false -> is_nan b = false ->
  (JS.max2 a b = a /\ JS.lt a b = false) \/ (JS.max2 a b = b /\ JS.lt b a = false).
Proof.
  intros Ha Hb. unfold JS.max2, JS.lt. rewrite Ha, Hb. cbn [orb].
  destruct (a <? b) eqn:Eab.
  - right. split; [reflexivity|].
    revert Eab. rewrite !FloatAxioms.ltb_spec. unfold SFltb.
    rewrite (F64Order.SFcompare_swap (Prim2SF a) (Prim2SF b)).
    destruct (SFcompare (Prim2SF a) (Prim2SF b)) as [[]|]; intros H;
      try discriminate; reflexivity.
  - destruct (b <? a) eqn:Eba; [left; split; reflexivity|].
    destruct (is_zero a); [|left; split; reflexivity].
    destruct (get_sign a); [right | left]; split; reflexivity.
Qed.

(** The larger of two numbers is truthy as soon as one of them is positive. *)
Lemma max2_truthy (a b : float) :
  is_nan a = false -> is_nan b = false ->
  JS.gt a 0 = true \/ JS.gt b 0 = true ->
  JS.truthy (JS.max2 a b) = true.
Proof.
  intros Ha Hb Hpos.
  destruct (max2_either a b Ha Hb) as [[E Hlt] | [E Hlt]]; rewrite E;
    revert Ha Hb Hpos Hlt; unfold JS.lt;
    rewrite !F64.is_nan_spec, !positive_spec, truthy_spec, FloatAxioms.ltb_spec;
    destruct (Prim2SF a) as [sa| sa| |sa ma ea];
    destruct (Prim2SF b) as [sb| sb| |sb mb eb];
    try destruct sa; try destruct sb; cbn;
    intros Ha Hb [H | H] Hlt; try discriminate; reflexivity.
Qed.

End F64Max.

Section FixedDimFacts.

Variable M : MathLib.
Variable env : Env.

Lemma absent_test (x : float) :
  JS.truthy x = false \/ JS.le x 0 = true ->
  negb (JS.truthy x) || JS.le x 0 = true.
Proof. intros [H | H]; rewrite H; [|rewrite orb_true_r]; reflexivity. Qed.

Lemma present_test (x : float) :
  JS.gt x 0 = true -> negb (JS.truthy x) || JS.le x 0 = false.
Proof.
  intros H. destruct (F64Max.positive_present x H) as [Ht Hl].
  rewrite Ht, Hl. reflexivity.
Qed.

(** Width given, height missing: only the height is solved for. *)
Lemma fixedDimWith_width_given
    (solve : bool -> float -> float -> float -> option DimSolution)
    (w_mm h_mm Q velocityVal targetDpVal : float) :
  JS.gt w_mm 0 = true ->
  JS.truthy h_mm = false \/ JS.le h_mm 0 = true ->
  let Qv := fixedDimFlow w_mm h_mm Q velocityVal in
  let solvedH :=
    assignIfTruthy
      (missingFromCandidates solve true w_mm Qv (safeNum velocityVal 0)
         (safeNum targetDpVal 0)) h_mm in
  fixedDimWith M env solve w_mm h_mm Q velocityVal targetDpVal
  = reported (ResFixedDim w_mm solvedH Qv (dp_per_m (evalAt M env w_mm solvedH Qv))).
Proof.
  intros Hw Hh. cbv zeta. unfold fixedDimWith, fixedDimFlow. cbv zeta.
  rewrite Hw, (absent_test h_mm Hh). reflexivity.
Qed.

(** Height given, width missing: only the width is solved for. *)
Lemma fixedDimWith_height_given
    (solve : bool -> float -> float -> float -> option DimSolution)
    (w_mm h_mm Q velocityVal targetDpVal : float) :
  JS.gt h_mm 0 = true ->
  JS.truthy w_mm = false \/ JS.le w_mm 0 = true ->
  let Qv := fixedDimFlow w_mm h_mm Q velocityVal in
  let solvedW :=
    assignIfTruthy
      (missingFromCandidates solve false h_mm Qv (safeNum velocityVal 0)
         (safeNum targetDpVal 0)) w_mm in
  fixedDimWith M env solve w_mm h_mm Q velocityVal targetDpVal
  = reported (ResFixedDim solvedW h_mm Qv (dp_per_m (evalAt M env solvedW h_mm Qv))).
Proof.
  intros Hh Hw. cbv zeta. unfold fixedDimWith, fixedDimFlow. cbv zeta.
  rewrite Hh, (absent_test w_mm Hw).
  assert (E : JS.gt w_mm 0 = false).
  { rewrite F64Max.positive_spec. destruct Hw as [H | H]; revert H.
    - rewrite F64Max.truthy_spec.
      destruct (Prim2SF w_mm) as [s| s| |s m e]; try destruct s; intros H;
        try discriminate; reflexivity.
    - unfold JS.le. rewrite FloatAxioms.leb_spec.
      change (Prim2SF 0) with (S754_zero false).
      destruct (Prim2SF w_mm) as [s| s| |s m e]; try destruct s; intros H;
        try discriminate; reflexivity. }
  rewrite E. reflexivity.
Qed.

(** Both candidates present: the pick is the larger after [safeNum]. *)
Lemma missingFromCandidates_both
    (solve : bool -> float -> float -> float -> option DimSolution)
    (fixedIsWidth : bool) (fixed_mm Qv needV needDp fromV fromDp : float) :
  candidateFromV fixed_mm Qv needV = Some fromV ->
  candidateFromDp solve fixedIsWidth fixed_mm Qv needDp = Some fromDp ->
  missingFromCandidates solve fixedIsWidth fixed_mm Qv needV needDp
  = Some (JS.max2 (safeNum fromV 0) (safeNum fromDp 0)).
Proof.
  intros HV HDp. unfold missingFromCandidates. rewrite HV, HDp.
  cbn [nonNull flat_map app pickCandidate map]. unfold JS.maxList.
  cbn [fold_left]. rewrite F64Max.max2_neg_infinity; [reflexivity|].
  apply F64Order.safeNum_finite. reflexivity.
Qed.

End FixedDimFacts.

(** C10.  In solve-one-dimension mode with width and height both strictly
    positive, a result is set that reports exactly the input width and
    height and the evaluator's pressure drop at those dimensions, for the
    flow that is the stated flow if positive, otherwise velocity times area
    if the velocity is positive, otherwise 0; no warning is set and nothing
    is written back to the inputs; and the outcome is the same whatever the
    bisection would return, so no bisection takes part. *)
Theorem fixedDim_both_given (M : MathLib) (env : Env)
    (w_mm h_mm flowInputVal velocityVal targetDpVal : float) :
  mode env = fixedDim ->
  JS.gt w_mm 0 = true -> JS.gt h_mm 0 = true ->
  let Q := flowInputToM3s flowInputVal (flowUnit env) in
  let needV := safeNum velocityVal 0 in
  let Qv := if JS.gt Q 0 then Q
            else if JS.gt needV 0 then needV * rectArea_m2_from_mm w_mm h_mm
            else 0 in
  let out := runSolverWithValues M env w_mm h_mm flowInputVal velocityVal targetDpVal in
  results out
  = Some (ResFixedDim w_mm h_mm Qv
            (dp_per_m (calcRectNums M w_mm h_mm Qv
                         (safeNum (temperature env) 20)
                         (safeNum (rh env) 50) (material env))))
  /\ warnings out = []
  /\ writeBack out = None
  /\ staleCleared out = true
  /\ forall solve : bool -> float -> float -> float -> option DimSolution,
       fixedDimWith M env solve w_mm h_mm Q velocityVal targetDpVal = out.
Proof.
  intros Hmode Hw Hh. cbv zeta.
  assert (Hany : forall solve,
    fixedDimWith M env solve w_mm h_mm
      (flowInputToM3s flowInputVal (flowUnit env)) velocityVal targetDpVal
    = {| results :=
           Some (ResFixedDim w_mm h_mm
             (fixedDimFlow w_mm h_mm (flowInputToM3s flowInputVal (flowUnit env))
                velocityVal)
             (dp_per_m (evalAt M env w_mm h_mm
                (fixedDimFlow w_mm h_mm
                   (flowInputToM3s flowInputVal (flowUnit env)) velocityVal))));
         warnings := []; writeBack := None; staleCleared := true |}).
  { intros solve. unfold fixedDimWith, fixedDimFlow. cbv zeta.
    rewrite Hw, Hh, (present_test h_mm Hh), (present_test w_mm Hw).
    reflexivity. }
  unfold runSolverWithValues. rewrite Hmode.
  repeat split; try (rewrite Hany; reflexivity).
  intros solve. rewrite !Hany. reflexivity.
Qed.

(** A 300 by 200 mm duct carrying 200 L/s. *)
Lemma fixedDim_both_given_witness :
  let out := runSolverWithValues SampleMath.lib (officeEnv fixedDim noLocks)
               300 200 200 5 1 in
  results out
  = Some (ResFixedDim 300 200 0.2
            (dp_per_m (calcRectNums SampleMath.lib 300 200 0.2 20 50
                         "Galvanised steel")))
  /\ warnings out = []
  /\ writeBack out = None
  /\ staleCleared out = true.
Proof.
  destruct (fixedDim_both_given SampleMath.lib (officeEnv fixedDim noLocks)
              300 200 200 5 1 eq_refl eq_refl eq_refl)
    as (Hres & Hwarn & Hwb & Hst & _).
  cbv zeta. repeat split; assumption.
Defined.

(** C9 (as amended).  In solve-one-dimension mode with exactly one of width
    and height positive, whenever the velocity-implied and the
    pressure-drop-implied candidates for the missing dimension both exist,
    the dimension reported is the larger of the two after [safeNum] (a
    candidate that is not finite counts as 0), provided that value is
    truthy; it is the larger of the two candidates themselves whenever both
    are finite and one of them is positive. *)
Theorem fixedDim_larger_candidate (M : MathLib) (env : Env)
    (w_mm h_mm flowInputVal velocityVal targetDpVal fromV fromDp : float) :
  mode env = fixedDim ->
  let Q := flowInputToM3s flowInputVal (flowUnit env) in
  let needV := safeNum velocityVal 0 in
  let needDp := safeNum targetDpVal 0 in
  let Qv := fixedDimFlow w_mm h_mm Q velocityVal in
  let larger := JS.max2 (safeNum fromV 0) (safeNum fromDp 0) in
  let out := runSolverWithValues M env w_mm h_mm flowInputVal velocityVal targetDpVal in
  (JS.gt w_mm 0 = true ->
   JS.truthy h_mm = false \/ JS.le h_mm 0 = true ->
   candidateFromV w_mm Qv needV = Some fromV ->
   candidateFromDp (solveMissingDimension M env) true w_mm Qv needDp = Some fromDp ->
   JS.truthy larger = true ->
   results out
   = Some (ResFixedDim w_mm larger Qv (dp_per_m (evalAt M env w_mm larger Qv))))
  /\ (JS.gt h_mm 0 = true ->
      JS.truthy w_mm = false \/ JS.le w_mm 0 = true ->
      candidateFromV h_mm Qv needV = Some fromV ->
      candidateFromDp (solveMissingDimension M env) false h_mm Qv needDp = Some fromDp ->
      JS.truthy larger = true ->
      results out
      = Some (ResFixedDim larger h_mm Qv (dp_per_m (evalAt M env larger h_mm Qv))))
  /\ (JS.isFinite fromV = true -> JS.isFinite fromDp = true ->
      JS.gt fromV 0 = true \/ JS.gt fromDp 0 = true ->
      larger = JS.max2 fromV fromDp /\ JS.truthy larger = true).
Proof.
  intros Hmode. cbv zeta. unfold runSolverWithValues. rewrite Hmode.
  split; [|split].
  - intros Hw Hh HV HDp Ht.
    rewrite (fixedDimWith_width_given M env _ _ _ _ _ _ Hw Hh). cbv zeta.
    rewrite (missingFromCandidates_both _ _ _ _ _ _ _ _ HV HDp).
    unfold assignIfTruthy. rewrite Ht. reflexivity.
  - intros Hh Hw HV HDp Ht.
    rewrite (fixedDimWith_height_given M env _ _ _ _ _ _ Hh Hw). cbv zeta.
    rewrite (missingFromCandidates_both _ _ _ _ _ _ _ _ HV HDp).
    unfold assignIfTruthy. rewrite Ht. reflexivity.
  - intros HfV HfDp Hpos. unfold safeNum. rewrite HfV, HfDp.
    split; [reflexivity|].
    apply F64Max.max2_truthy; try assumption;
      apply F64Order.finite_not_nan; assumption.
Qed.

(** Width 300 mm, 200 L/s, 5 m/s and 1 Pa/m: the velocity asks for 133 mm,
    the pressure drop for 167 mm, and 167 mm is reported. *)
Lemma fixedDim_larger_candidate_witness :
  let env := officeEnv fixedDim noLocks in
  candidateFromV 300 0.2 5 = Some 133.33333333333334
  /\ candidateFromDp (solveMissingDimension SampleMath.lib env) true 300 0.2 1
     = Some 166.93244819641112
  /\ JS.max2 133.33333333333334 166.93244819641112 = 166.93244819641112
  /\ results (runSolverWithValues SampleMath.lib env 300 0 200 5 1)
     = Some (ResFixedDim 300 166.93244819641112 0.2
               (dp_per_m (evalAt SampleMath.lib env 300 166.93244819641112 0.2))).
Proof.
  cbv zeta.
  assert (HV : candidateFromV 300 0.2 5 = Some 133.33333333333334)
    by (vm_compute; reflexivity).
  assert (HDp : candidateFromDp
                  (solveMissingDimension SampleMath.lib (officeEnv fixedDim noLocks))
                  true 300 0.2 1 = Some 166.93244819641112)
    by (vm_compute; reflexivity).
  split; [exact HV|]. split; [exact HDp|]. split; [reflexivity|].
  exact (proj1 (fixedDim_larger_candidate SampleMath.lib (officeEnv fixedDim noLocks)
                  300 0 200 5 1 133.33333333333334 166.93244819641112 eq_refl)
           eq_refl (or_intror eq_refl) HV HDp eq_refl).
Defined.

(** C9 as stated fails.  With width 300 mm, 200 L/s, 1 Pa/m and a velocity
    of 1e-320 m/s the required area overflows: the velocity-implied
    candidate is +infinity, the larger of the two, yet the dimension
    reported is the pressure-drop-implied one. *)
Lemma fixedDim_infinite_candidate_counterexample :
  let env := officeEnv fixedDim noLocks in
  candidateFromV 300 0.2 1e-320 = Some infinity
  /\ candidateFromDp (solveMissingDimension SampleMath.lib env) true 300 0.2 1
     = Some 166.93244819641112
  /\ JS.max2 infinity 166.93244819641112 = infinity
  /\ results (runSolverWithValues SampleMath.lib env 300 0 200 1e-320 1)
     = Some (ResFixedDim 300 166.93244819641112 0.2 0.99992797264458289).
Proof.
  cbv zeta. repeat split; vm_compute; reflexivity.
Qed.

(** * The missing-dimension bisection *)

Section DimLoopFacts.

Variable M : MathLib.
Variable env : Env.
Variable fixedIsWidth : bool.
Variables fixed_m Q_m3s target : float.

(** The loop returns the last trial with a finite pressure drop. *)
Lemma dimLoop_last_finite (n : nat) :
  forall (lo hi : float) (best : option (float * float)),
    dimLoop M env fixedIsWidth fixed_m Q_m3s target n lo hi best
    = fold_left (fun acc trial => if JS.isFinite (snd trial) then Some trial else acc)
        (dimTrials M env fixedIsWidth fixed_m Q_m3s target n lo hi) best.
Proof.
  induction n as [|n IH]; intros lo hi best; [reflexivity|].
  cbn [dimLoop dimTrials].
  set (mid := 0.5 * (lo + hi)).
  set (dp := dp_per_m (evalAt M env _ _ Q_m3s)).
  destruct (JS.isFinite dp) eqn:Efin; cbn [negb fold_left snd].
  - rewrite Efin. destruct (withinTol dp target); [reflexivity|]. apply IH.
  - rewrite Efin. reflexivity.
Qed.

Lemma dimTrials_evaluated (n : nat) :
  forall (lo hi : float) (trial : float * float),
    In trial (dimTrials M env fixedIsWidth fixed_m Q_m3s target n lo hi) ->
    snd trial = dimTrialDp M env fixedIsWidth fixed_m Q_m3s (fst trial).
Proof.
  induction n as [|n IH]; intros lo hi trial; cbn [dimTrials]; [intros []|].
  destruct (negb (JS.isFinite _)).
  - intros [<- | []]. reflexivity.
  - intros [<- | Hin]; [reflexivity|].
    destruct (withinTol _ target); [destruct Hin|].
    exact (IH _ _ _ Hin).
Qed.

Lemma fold_last_finite (trials : list (float * float)) :
  forall best : option (float * float),
    let r := fold_left
               (fun acc trial => if JS.isFinite (snd trial) then Some trial else acc)
               trials best in
    r = best
    \/ exists trial, In trial trials /\ JS.isFinite (snd trial) = true /\ r = Some trial.
Proof.
  induction trials as [|t ts IH]; intros best; cbn [fold_left]; [left; reflexivity|].
  destruct (IH (if JS.isFinite (snd t) then Some t else best))
    as [E | (p & Hin & Hf & E)].
  - destruct (JS.isFinite (snd t)) eqn:Ef.
    + right. exists t. split; [left; reflexivity|]. split; assumption.
    + left. exact E.
  - right. exists p. split; [right; exact Hin|]. split; assumption.
Qed.

(** Once a finite trial is recorded, the loop ends with a recorded trial. *)
Lemma fold_keeps_some (trials : list (float * float)) :
  forall best : option (float * float),
    best <> None ->
    fold_left (fun acc trial => if JS.isFinite (snd trial) then Some trial else acc)
      trials best <> None.
Proof.
  induction trials as [|t ts IH]; intros best Hbest; cbn [fold_left]; [exact Hbest|].
  apply IH. destruct (JS.isFinite (snd t)); [discriminate | exact Hbest].
Qed.

(** How the loop stops: it uses all its iterations, or its last trial is
    non-finite, or its last trial is within the tolerance. *)
Lemma dimTrials_stop (n : nat) :
  forall lo hi : float,
    let trials := dimTrials M env fixedIsWidth fixed_m Q_m3s target n lo hi in
    List.length trials = n
    \/ exists before trial,
         trials = before ++ [trial]
         /\ (JS.isFinite (snd trial) = false
             \/ (JS.isFinite (snd trial) = true
                 /\ withinTol (snd trial) target = true)).
Proof.
  induction n as [|n IH]; intros lo hi; cbn [dimTrials]; [left; reflexivity|].
  set (mid := 0.5 * (lo + hi)).
  set (dp := dp_per_m (evalAt M env _ _ Q_m3s)).
  destruct (JS.isFinite dp) eqn:Efin; cbn [negb].
  - destruct (withinTol dp target) eqn:Etol.
    + right. exists [], (mid, dp). split; [reflexivity|]. right. split; assumption.
    + destruct (IH (if JS.gt dp target then mid else lo)
                   (if JS.gt dp target then hi else mid))
        as [Hlen | (before & trial & E & Hstop)]; cbv zeta in *.
      * left. cbn [List.length]. rewrite Hlen. reflexivity.
      * right. exists ((mid, dp) :: before), trial. rewrite E.
        split; [reflexivity | exact Hstop].
  - right. exists [], (mid, dp). split; [reflexivity|]. left. exact Efin.
Qed.

End DimLoopFacts.

Lemma solveMissingDimension_unfold (M : MathLib) (env : Env) (fixedIsWidth : bool)
    (x Q t : float) :
  solveMissingDimension M env fixedIsWidth x Q t
  = if dimGuardFails x Q t then None
    else match fold_left
                 (fun acc trial => if JS.isFinite (snd trial) then Some trial else acc)
                 (dimTrials M env fixedIsWidth (mmToM (safeNum x 0)) Q (safeNum t 0)
                    60 1e-4 5.0) None with
         | None => None
         | Some (mid, dp) => Some {| displayValueMm := mToMm mid; sol_dp := dp |}
         end.
Proof.
  unfold solveMissingDimension, dimGuardFails. cbv zeta.
  rewrite dimLoop_last_finite. reflexivity.
Qed.

Lemma dimGuard_passed (x Q t : float) :
  dimGuardFails x Q t = false ->
  safeNum x 0 = x /\ safeNum t 0 = t.
Proof.
  unfold dimGuardFails. intros H.
  apply orb_false_iff in H. destruct H as [H Ht].
  apply orb_false_iff in H. destruct H as [Hx _].
  split; [exact (guard_passed_finite x Hx)|].
  exact (proj1 (target_passed_finite t Ht)).
Qed.

(** Every solution of the bisection is one of its finite trials. *)
Lemma solveMissingDimension_trial (M : MathLib) (env : Env) (fixedIsWidth : bool)
    (x Q t : float) (sol : DimSolution) :
  solveMissingDimension M env fixedIsWidth x Q t = Some sol ->
  dimGuardFails x Q t = false
  /\ exists mid,
       In (mid, sol_dp sol)
          (dimTrials M env fixedIsWidth (mmToM x) Q t 60 1e-4 5.0)
       /\ JS.isFinite (sol_dp sol) = true
       /\ displayValueMm sol = mToMm mid
       /\ fold_left
            (fun acc trial => if JS.isFinite (snd trial) then Some trial else acc)
            (dimTrials M env fixedIsWidth (mmToM x) Q t 60 1e-4 5.0) None
          = Some (mid, sol_dp sol).
Proof.
  rewrite solveMissingDimension_unfold.
  destruct (dimGuardFails x Q t) eqn:Eg; [discriminate|].
  destruct (dimGuard_passed x Q t Eg) as [Ex Et]. rewrite Ex, Et.
  set (trials := dimTrials M env fixedIsWidth (mmToM x) Q t 60 1e-4 5.0).
  clearbody trials.
  destruct (fold_last_finite trials None) as [E | (trial & Hin & Hf & E)];
    cbv zeta in E; rewrite E; [discriminate|].
  destruct trial as [mid dp]. intros H. injection H as <-.
  split; [reflexivity|]. exists mid. cbn [sol_dp displayValueMm].
  repeat split; assumption.
Qed.

(** X1.  A solution of [solveMissingDimension] carries a finite pressure
    drop, which is exactly the evaluator's pressure drop at the returned
    dimension and the fixed dimension as the solver converts it; it is the
    evaluator's value at the fixed dimension as given whenever its metre
    value survives the conversion to millimetres and back. *)
Theorem solveMissingDimension_reproduces (M : MathLib) (env : Env)
    (fixedIsWidth : bool) (x Q t : float) (sol : DimSolution) :
  solveMissingDimension M env fixedIsWidth x Q t = Some sol ->
  let at_dims (fixed : float) :=
    if fixedIsWidth then evalAt M env fixed (displayValueMm sol) Q
    else evalAt M env (displayValueMm sol) fixed Q in
  JS.isFinite (sol_dp sol) = true
  /\ sol_dp sol = dp_per_m (at_dims (mToMm (mmToM x)))
  /\ (mmToM (mToMm (mmToM x)) = mmToM x -> sol_dp sol = dp_per_m (at_dims x)).
Proof.
  intros Hsol.
  destruct (solveMissingDimension_trial M env fixedIsWidth x Q t sol Hsol)
    as (_ & mid & Hin & Hfin & Hdisp & _).
  pose proof (dimTrials_evaluated M env fixedIsWidth _ _ _ _ _ _ _ Hin) as Hdp.
  cbn [fst snd] in Hdp. unfold dimTrialDp in Hdp.
  cbv zeta. split; [exact Hfin|].
  assert (Hat : sol_dp sol
          = dp_per_m (if fixedIsWidth
                      then evalAt M env (mToMm (mmToM x)) (displayValueMm sol) Q
                      else evalAt M env (displayValueMm sol) (mToMm (mmToM x)) Q)).
  { rewrite Hdp, Hdisp. destruct fixedIsWidth; reflexivity. }
  split; [exact Hat|].
  intros Hx. rewrite Hat. unfold evalAt.
  destruct fixedIsWidth.
  - rewrite (calcRectNums_metres M (mToMm (mmToM x)) (displayValueMm sol)
               x (displayValueMm sol)); [reflexivity | exact Hx | reflexivity].
  - rewrite (calcRectNums_metres M (displayValueMm sol) (mToMm (mmToM x))
               (displayValueMm sol) x); [reflexivity | reflexivity | exact Hx].
Qed.

(** Width 300 mm, 200 L/s, 1 Pa/m in office air: a height of 166.9 mm,
    whose evaluation gives back the reported pressure drop. *)
Lemma solveMissingDimension_reproduces_witness :
  let env := officeEnv fixedDim noLocks in
  solveMissingDimension SampleMath.lib env true 300 0.2 1
  = Some {| displayValueMm := 166.93244819641112; sol_dp := 0.99992797264458289 |}
  /\ dp_per_m (evalAt SampleMath.lib env 300 166.93244819641112 0.2)
     = 0.99992797264458289.
Proof.
  cbv zeta.
  assert (Hs : solveMissingDimension SampleMath.lib (officeEnv fixedDim noLocks)
                 true 300 0.2 1
               = Some {| displayValueMm := 166.93244819641112;
                         sol_dp := 0.99992797264458289 |})
    by (vm_compute; reflexivity).
  split; [exact Hs|].
  destruct (solveMissingDimension_reproduces SampleMath.lib
              (officeEnv fixedDim noLocks) true 300 0.2 1 _ Hs) as (_ & _ & H).
  symmetry. apply H. reflexivity.
Defined.

(** With no trial recorded yet, the loop ends empty-handed exactly when its
    first trial is non-finite. *)
Lemma fold_dimTrials_none (M : MathLib) (env : Env) (fixedIsWidth : bool)
    (fixed_m Q target : float) (n : nat) (lo hi : float) :
  fold_left (fun acc trial => if JS.isFinite (snd trial) then Some trial else acc)
    (dimTrials M env fixedIsWidth fixed_m Q target (S n) lo hi) None = None
  <-> JS.isFinite (dimTrialDp M env fixedIsWidth fixed_m Q (0.5 * (lo + hi))) = false.
Proof.
  cbn [dimTrials]. unfold dimTrialDp.
  destruct (JS.isFinite (dp_per_m (evalAt M env _ _ Q))) eqn:Efin;
    cbn [negb fold_left snd]; rewrite Efin.
  - split; [|discriminate]. intros H. exfalso. revert H.
    apply fold_keeps_some. discriminate.
  - split; reflexivity.
Qed.

(** X2.  [solveMissingDimension] returns no solution exactly when its guard
    fails (fixed dimension in metres, flow or target [<= 0], the first and
    the last after [safeNum]) or the pressure drop at the first midpoint of
    [1e-4, 5.0] is not finite. *)
Theorem solveMissingDimension_none_iff (M : MathLib) (env : Env)
    (fixedIsWidth : bool) (x Q t : float) :
  solveMissingDimension M env fixedIsWidth x Q t = None
  <-> (dimGuardFails x Q t = true
       \/ JS.isFinite (dimTrialDp M env fixedIsWidth (mmToM (safeNum x 0)) Q
                         (0.5 * (1e-4 + 5.0))) = false).
Proof.
  rewrite solveMissingDimension_unfold.
  destruct (dimGuardFails x Q t) eqn:Eg.
  - split; [intros _; left; reflexivity | reflexivity].
  - pose proof (fold_dimTrials_none M env fixedIsWidth (mmToM (safeNum x 0)) Q
                  (safeNum t 0) 59 1e-4 5.0) as Hiff.
    set (r := fold_left _ _ None) in *. clearbody r.
    destruct r as [[mid dp]|].
    + split; [discriminate|]. intros [H | H]; [discriminate H|].
      apply Hiff in H. discriminate H.
    + split; [|reflexivity]. intros _. right. apply Hiff. reflexivity.
Qed.

(** X3.  A solution of [solveMissingDimension] is within the relative
    tolerance 1e-4 of the target unless the bisection used all its 60
    iterations or was cut short by a trial with a non-finite pressure
    drop. *)
Theorem solveMissingDimension_stop (M : MathLib) (env : Env)
    (fixedIsWidth : bool) (x Q t : float) (sol : DimSolution) :
  solveMissingDimension M env fixedIsWidth x Q t = Some sol ->
  let trials := dimTrials M env fixedIsWidth (mmToM x) Q t 60 1e-4 5.0 in
  withinTol (sol_dp sol) t = true
  \/ List.length trials = 60%nat
  \/ exists before trial,
       trials = before ++ [trial] /\ JS.isFinite (snd trial) = false.
Proof.
  intros Hsol.
  destruct (solveMissingDimension_trial M env fixedIsWidth x Q t sol Hsol)
    as (_ & mid & _ & _ & _ & Hfold).
  pose proof (dimTrials_stop M env fixedIsWidth (mmToM x) Q t 60 1e-4 5.0) as Hstop.
  cbv zeta in *.
  set (trials := dimTrials M env fixedIsWidth (mmToM x) Q t 60 1e-4 5.0) in *.
  clearbody trials.
  destruct Hstop as [Hlen | (before & trial & E & [Hnf | [Hf Htol]])].
  - right. left. exact Hlen.
  - right. right. exists before, trial. split; assumption.
  - left. rewrite E, fold_left_app in Hfold. cbn [fold_left] in Hfold.
    rewrite Hf in Hfold. injection Hfold as Hfold. rewrite Hfold in Htol.
    exact Htol.
Qed.

(** The office example stops on the tolerance. *)
Lemma solveMissingDimension_stop_witness :
  let env := officeEnv fixedDim noLocks in
  solveMissingDimension SampleMath.lib env true 300 0.2 1
  = Some {| displayValueMm := 166.93244819641112; sol_dp := 0.99992797264458289 |}
  /\ withinTol 0.99992797264458289 1 = true.
Proof.
  cbv zeta.
  assert (Hs : solveMissingDimension SampleMath.lib (officeEnv fixedDim noLocks)
                 true 300 0.2 1
               = Some {| displayValueMm := 166.93244819641112;
                         sol_dp := 0.99992797264458289 |})
    by (vm_compute; reflexivity).
  split; [exact Hs|].
  destruct (solveMissingDimension_stop SampleMath.lib
              (officeEnv fixedDim noLocks) true 300 0.2 1 _ Hs)
    as [Htol | [Hlen | (before & trial & E & Hnf)]].
  - exact Htol.
  - exfalso. revert Hlen. vm_compute. discriminate.
  - exfalso.
    assert (Hall : forallb (fun trial => JS.isFinite (snd trial))
                     (dimTrials SampleMath.lib (officeEnv fixedDim noLocks) true
                        (mmToM 300) 0.2 1 60 1e-4 5.0) = true)
      by (vm_compute; reflexivity).
    rewrite E, forallb_app in Hall. cbn [forallb] in Hall.
    rewrite Hnf in Hall. rewrite andb_false_r in Hall. discriminate Hall.
Defined.

(** * Signs of products and quotients *)

Module F64Sign.

Lemma round_aux_sign (s : bool) (m e : Z) (l : location) :
  binary_round_aux prec emax (negb s) m e l
  = SFopp (binary_round_aux prec emax s m e l).
Proof.
  unfold binary_round_aux.
  destruct (shr_fexp prec emax m e l) as [mrs e'].
  destruct (shr_fexp prec emax _ e' loc_Exact) as [mrs' e''].
  destruct (shr_m mrs'); [reflexivity| |reflexivity].
  destruct (Z.leb e'' (Z.sub emax prec)); reflexivity.
Qed.

Lemma xorb_negb_l (a b : bool) : xorb (negb a) b = negb (xorb a b).
Proof. destruct a, b; reflexivity. Qed.

Lemma xorb_negb_r (a b : bool) : xorb a (negb b) = negb (xorb a b).
Proof. destruct a, b; reflexivity. Qed.

Lemma SFmul_opp_l (x y : spec_float) :
  SF64mul (SFopp x) y = SFopp (SF64mul x y).
Proof.
  destruct x as [sx| sx| |sx mx ex], y as [sy| sy| |sy my ey];
    cbn [SFopp SF64mul SFmul]; rewrite ?xorb_negb_l; try reflexivity.
  apply round_aux_sign.
Qed.

Lemma SFmul_opp_r (x y : spec_float) :
  SF64mul x (SFopp y) = SFopp (SF64mul x y).
Proof.
  destruct x as [sx| sx| |sx mx ex], y as [sy| sy| |sy my ey];
    cbn [SFopp SF64mul SFmul]; rewrite ?xorb_negb_r; try reflexivity.
  apply round_aux_sign.
Qed.

Lemma SFdiv_opp_l (x y : spec_float) :
  SF64div (SFopp x) y = SFopp (SF64div x y).
Proof.
  destruct x as [sx| sx| |sx mx ex], y as [sy| sy| |sy my ey];
    cbn [SFopp SF64div SFdiv]; rewrite ?xorb_negb_l; try reflexivity.
  destruct (SFdiv_core_binary prec emax (Z.pos mx) ex (Z.pos my) ey) as [[mz ez] lz].
  apply round_aux_sign.
Qed.

Lemma mul_opp_l (x y : float) : (- x) * y = - (x * y).
Proof.
  apply Prim2SF_inj.
  rewrite FloatAxioms.mul_spec, !FloatAxioms.opp_spec, FloatAxioms.mul_spec.
  apply SFmul_opp_l.
Qed.

Lemma mul_opp_r (x y : float) : x * (- y) = - (x * y).
Proof.
  apply Prim2SF_inj.
  rewrite FloatAxioms.mul_spec, !FloatAxioms.opp_spec, FloatAxioms.mul_spec.
  apply SFmul_opp_r.
Qed.

Lemma div_opp_l (x y : float) : (- x) / y = - (x / y).
Proof.
  apply Prim2SF_inj.
  rewrite FloatAxioms.div_spec, !FloatAxioms.opp_spec, FloatAxioms.div_spec.
  apply SFdiv_opp_l.
Qed.

Lemma opp_involutive (x : float) : - (- x) = x.
Proof.
  apply Prim2SF_inj. rewrite !FloatAxioms.opp_spec.
  destruct (Prim2SF x) as [s| s| |s m e]; cbn [SFopp]; rewrite ?negb_involutive;
    reflexivity.
Qed.

Lemma abs_opp (x : float) : abs (- x) = abs x.
Proof.
  apply Prim2SF_inj. rewrite !FloatAxioms.abs_spec, FloatAxioms.opp_spec.
  destruct (Prim2SF x); reflexivity.
Qed.

(** A product of two opposites is the product. *)
Lemma mul_opp_opp (x y : float) : (- x) * (- y) = x * y.
Proof. rewrite mul_opp_l, mul_opp_r. apply opp_involutive. Qed.

Lemma mul_square_opp (r v : float) : r * (- v) * (- v) = r * v * v.
Proof. rewrite !mul_opp_r, mul_opp_l. apply opp_involutive. Qed.

(** The quotient of a number [<= 0] by a positive number is never [> 0]. *)
Lemma div_nonpositive (q a c : float) :
  JS.le q 0 = true -> JS.gt a 0 = true -> JS.gt c 0 = true ->
  JS.gt (q / a) c = false.
Proof.
  unfold JS.le. rewrite !F64Max.positive_spec. unfold JS.gt.
  rewrite FloatAxioms.leb_spec, FloatAxioms.ltb_spec, FloatAxioms.div_spec.
  change (Prim2SF 0) with (S754_zero false).
  destruct (Prim2SF q) as [sq| sq| |sq mq eq]; try destruct sq;
    intros Hq; try discriminate Hq;
    destruct (Prim2SF a) as [sa| sa| |sa ma ea]; try destruct sa;
    intros Ha; try discriminate Ha;
    destruct (Prim2SF c) as [sc| sc| |sc mc ec]; try destruct sc;
    intros Hc; try discriminate Hc; try reflexivity;
    cbn [SF64div SFdiv xorb];
    destruct (SFdiv_core_binary prec emax (Z.pos mq) eq (Z.pos ma) ea)
      as [[mz ez] lz];
    unfold binary_round_aux;
    destruct (shr_fexp prec emax mz ez lz) as [mrs e'];
    destruct (shr_fexp prec emax _ e' loc_Exact) as [mrs' e''];
    destruct (shr_m mrs'); try reflexivity;
    destruct (Z.leb e'' (Z.sub emax prec)); reflexivity.
Qed.

End F64Sign.

(** * The evaluator and the sign of the flow *)

(** X4.  Reversing the sign of the flow leaves the Reynolds number, the
    friction factor, the pressure drop per metre and the velocity pressure
    of the evaluator unchanged; the velocity keeps its magnitude and, when
    the area is positive, changes sign. *)
Theorem calcRectNums_flow_sign (M : MathLib) (w h Q T RH : float) (mat : string) :
  let c := calcRectNums M w h Q T RH mat in
  let c' := calcRectNums M w h (- Q) T RH mat in
  Re c' = Re c
  /\ f c' = f c
  /\ dp_per_m c' = dp_per_m c
  /\ velocityPressure c' = velocityPressure c
  /\ abs (V c') = abs (V c)
  /\ (JS.gt (A c) 0 = true -> V c' = - V c).
Proof.
  cbv zeta. unfold calcRectNums.
  cbn [Re f dp_per_m velocityPressure V A].
  destruct (JS.gt (rectArea_m2_from_mm w h) 0).
  - rewrite F64Sign.div_opp_l, F64Sign.abs_opp, !F64Sign.mul_square_opp.
    repeat split; reflexivity.
  - repeat split; try reflexivity. intros H. discriminate H.
Qed.

(** * Direct evaluation mode *)

(** X5.  Direct evaluation always reports a result and clears the stale
    flag; its only possible warning is the high-velocity one, emitted
    exactly when the evaluated velocity exceeds 15 m/s, and never for a
    flow that is [<= 0] nor for a zero width or height. *)
Theorem pressureDrop_mode_warning (M : MathLib) (env : Env)
    (w_mm h_mm flowInputVal velocityVal targetDpVal : float) :
  mode env = pressureDrop ->
  let Q := flowInputToM3s flowInputVal (flowUnit env) in
  let c := evalAt M env w_mm h_mm Q in
  let out := runSolverWithValues M env w_mm h_mm flowInputVal velocityVal targetDpVal in
  results out
  = Some (ResPressureDrop w_mm h_mm Q (Dh c) (V c) (V c) (dp_per_m c)
            (velocityPressure c))
  /\ staleCleared out = true
  /\ warnings out
     = (if JS.gt (V c) 15
        then ["Velocity high (>15 m/s) — check suitability"%string] else [])
  /\ (JS.le Q 0 = true \/ is_zero w_mm = true \/ is_zero h_mm = true ->
      warnings out = []).
Proof.
  intros Hmode. cbv zeta. unfold runSolverWithValues. rewrite Hmode.
  unfold pressureDropMode. cbn [results staleCleared warnings].
  repeat split.
  intros Hquiet.
  assert (HV : JS.gt (V (evalAt M env w_mm h_mm
                           (flowInputToM3s flowInputVal (flowUnit env)))) 15 = false).
  { unfold evalAt, calcRectNums. cbn [V].
    destruct (JS.gt (rectArea_m2_from_mm w_mm h_mm) 0) eqn:EA; [|reflexivity].
    destruct Hquiet as [HQ | [Hw | Hh]].
    - apply F64Sign.div_nonpositive; [exact HQ | exact EA | reflexivity].
    - rewrite (area_zero_width w_mm h_mm Hw) in EA. discriminate EA.
    - rewrite (area_zero_height w_mm h_mm Hh) in EA. discriminate EA. }
  rewrite HV. reflexivity.
Qed.

(** A reversed flow of 1000 L/s in a 200 mm square duct: 25 m/s backwards,
    and no warning. *)
Lemma pressureDrop_mode_warning_witness :
  let env := officeEnv pressureDrop noLocks in
  JS.le (flowInputToM3s (-1000) Ls) 0 = true
  /\ V (evalAt SampleMath.lib env 200 200 (flowInputToM3s (-1000) Ls))
     = -24.999999999999996
  /\ warnings (runSolverWithValues SampleMath.lib env 200 200 (-1000) 0 1) = [].
Proof.
  cbv zeta. split; [reflexivity|]. split; [vm_compute; reflexivity|].
  apply (pressureDrop_mode_warning SampleMath.lib (officeEnv pressureDrop noLocks)
           200 200 (-1000) 0 1 eq_refl).
  left. reflexivity.
Defined.

(** * Solve-max-flow mode *)

Lemma zero_dimension_fails_guard (x : float) :
  is_zero x = true -> JS.le (mmToM (safeNum x 0)) 0 = true.
Proof. intros H. destruct (F64.zero_cases x H) as [-> | ->]; reflexivity. Qed.

(** X6.  In solve-max-flow mode, a velocity and a pressure drop that are
    both positive set no result and the "either ... or" message as the one
    warning; when neither is positive the call has no effect at all (no
    result, no warning, nothing written back, the stale flag untouched);
    and with only a positive pressure drop on a duct of zero width or height
    the result set reports no flow ([null]) and velocity 0, with no warning
    and the stale flag cleared. *)
Theorem maxFlow_mode_degenerate (M : MathLib) (env : Env)
    (w_mm h_mm flowInputVal velocityVal targetDpVal : float) :
  mode env = maxFlow ->
  let needV := safeNum velocityVal 0 in
  let needDp := safeNum targetDpVal 0 in
  let out := runSolverWithValues M env w_mm h_mm flowInputVal velocityVal targetDpVal in
  (JS.gt needV 0 = true -> JS.gt needDp 0 = true ->
   results out = None
   /\ warnings out
      = ["Enter either Velocity OR Pressure Drop in Max Flow mode, not both."%string]
   /\ writeBack out = None
   /\ staleCleared out = false)
  /\ (JS.gt needV 0 = false -> JS.gt needDp 0 = false ->
      results out = None
      /\ warnings out = []
      /\ writeBack out = None
      /\ staleCleared out = false)
  /\ (JS.gt needV 0 = false -> JS.gt needDp 0 = true ->
      is_zero w_mm = true \/ is_zero h_mm = true ->
      results out = Some (ResMaxFlowDp w_mm h_mm None 0 needDp)
      /\ warnings out = []
      /\ writeBack out = None
      /\ staleCleared out = true).
Proof.
  intros Hmode. cbv zeta. unfold runSolverWithValues. rewrite Hmode.
  unfold maxFlowMode. cbv zeta. split; [|split].
  - intros HV HDp. rewrite HV, HDp. repeat split; reflexivity.
  - intros HV HDp. rewrite HV, HDp. repeat split; reflexivity.
  - intros HV HDp Hzero. rewrite HV, HDp. cbn [andb].
    assert (Hnull : solveMaxFlow M env w_mm h_mm (safeNum targetDpVal 0) = None).
    { unfold solveMaxFlow. cbv zeta.
      destruct Hzero as [H | H]; rewrite (zero_dimension_fails_guard _ H);
        rewrite ?orb_true_r; reflexivity. }
    rewrite Hnull.
    assert (HA : JS.gt (rectArea_m2_from_mm w_mm h_mm) 0 = false).
    { destruct Hzero; [apply area_zero_width | apply area_zero_height]; assumption. }
    destruct (calc_no_area M w_mm h_mm 0 (safeNum (temperature env) 20)
                (safeNum (rh env) 50) (material env) HA) as (EV & _).
    unfold evalAt. rewrite EV. repeat split; reflexivity.
Qed.

(** Both targets entered: only the warning.  Neither entered: nothing.  A
    zero width with a pressure drop target: a result without a flow. *)
Lemma maxFlow_mode_degenerate_witness :
  let env := officeEnv maxFlow noLocks in
  (let out := runSolverWithValues SampleMath.lib env 200 200 100 5 1 in
   results out = None
   /\ warnings out
      = ["Enter either Velocity OR Pressure Drop in Max Flow mode, not both."%string]
   /\ writeBack out = None
   /\ staleCleared out = false)
  /\ (let out := runSolverWithValues SampleMath.lib env 200 200 100 0 0 in
      results out = None
      /\ warnings out = []
      /\ writeBack out = None
      /\ staleCleared out = false)
  /\ (let out := runSolverWithValues SampleMath.lib env 0 200 100 0 1 in
      results out = Some (ResMaxFlowDp 0 200 None 0 1)
      /\ warnings out = []
      /\ writeBack out = None
      /\ staleCleared out = true).
Proof.
  cbv zeta.
  destruct (maxFlow_mode_degenerate SampleMath.lib (officeEnv maxFlow noLocks)
              200 200 100 5 1 eq_refl) as (H1 & _ & _).
  destruct (maxFlow_mode_degenerate SampleMath.lib (officeEnv maxFlow noLocks)
              200 200 100 0 0 eq_refl) as (_ & H2 & _).
  destruct (maxFlow_mode_degenerate SampleMath.lib (officeEnv maxFlow noLocks)
              0 200 100 0 1 eq_refl) as (_ & _ & H3).
  split; [exact (H1 eq_refl eq_refl)|].
  split; [exact (H2 eq_refl eq_refl)|].
  exact (H3 eq_refl eq_refl (or_introl eq_refl)).
Defined.

(** * Invariants of the magic search *)

Module F64Lt.

Lemma SFcompare_refl (x : spec_float) :
  SFcompare x x = Some Eq \/ SFcompare x x = None.
Proof.
  destruct x as [s| s| |s m e]; try destruct s; cbn [SFcompare];
    rewrite ?Z.compare_refl, ?Pos.compare_cont_refl; auto.
Qed.

Lemma lt_irrefl (x : float) : JS.lt x x = false.
Proof.
  unfold JS.lt. rewrite FloatAxioms.ltb_spec. unfold SFltb.
  destruct (SFcompare_refl (Prim2SF x)) as [E | E]; rewrite E; reflexivity.
Qed.

Lemma lt_nan_l (x : float) : JS.lt nan x = false.
Proof.
  unfold JS.lt. rewrite FloatAxioms.ltb_spec.
  change (Prim2SF nan) with S754_nan. reflexivity.
Qed.

(** [Math.max(a, b)] is never below [b]. *)
Lemma max2_not_below_r (a b : float) : JS.lt (JS.max2 a b) b = false.
Proof.
  unfold JS.max2.
  destruct (is_nan a || is_nan b); [apply lt_nan_l|].
  destruct (a <? b) eqn:Eab; [apply lt_irrefl|].
  destruct (b <? a); [exact Eab|].
  destruct (is_zero a); [|exact Eab].
  destruct (get_sign a); [apply lt_irrefl | exact Eab].
Qed.

Lemma finite_lt_trans (s : bool) (m1 m2 m3 : positive) (e1 e2 e3 : Z) :
  SFcompare (S754_finite s m1 e1) (S754_finite s m2 e2) = Some Lt ->
  SFcompare (S754_finite s m2 e2) (S754_finite s m3 e3) = Some Lt ->
  SFcompare (S754_finite s m1 e1) (S754_finite s m3 e3) = Some Lt.
Proof.
  cbn [SFcompare].
  change (Pos.compare_cont Eq m1 m2) with (Pos.compare m1 m2).
  change (Pos.compare_cont Eq m2 m3) with (Pos.compare m2 m3).
  change (Pos.compare_cont Eq m1 m3) with (Pos.compare m1 m3).
  destruct s;
    destruct (Z.compare_spec e1 e2), (Z.compare_spec e2 e3),
             (Z.compare_spec e1 e3);
    destruct (Pos.compare_spec m1 m2), (Pos.compare_spec m2 m3),
             (Pos.compare_spec m1 m3);
    cbn [CompOpp]; intros Hxy Hyz; try discriminate; try reflexivity;
    exfalso; subst; lia.
Qed.

Lemma SFlt_trans (x y z : spec_float) :
  SFcompare x y = Some Lt -> SFcompare y z = Some Lt -> SFcompare x z = Some Lt.
Proof.
  destruct x as [sx| sx| |sx mx ex], y as [sy| sy| |sy my ey],
           z as [sz| sz| |sz mz ez];
    try destruct sx; try destruct sy; try destruct sz;
    try (cbn [SFcompare]; intros Hxy Hyz; first [discriminate | reflexivity]);
    apply finite_lt_trans.
Qed.

Lemma lt_trans (x y z : float) :
  JS.lt x y = true -> JS.lt y z = true -> JS.lt x z = true.
Proof.
  unfold JS.lt. rewrite !FloatAxioms.ltb_spec. unfold SFltb.
  destruct (SFcompare (Prim2SF x) (Prim2SF y)) as [[]|] eqn:E1;
    try discriminate.
  destruct (SFcompare (Prim2SF y) (Prim2SF z)) as [[]|] eqn:E2;
    try discriminate.
  intros _ _. rewrite (SFlt_trans _ _ _ E1 E2). reflexivity.
Qed.

End F64Lt.

Section MagicInvariants.

Variable M : MathLib.
Variable env : Env.
Variable locked : Locks.
Variable targets : Targets.

Lemma getVar_setVar_same (v : Var) (x : float) (s : MagicState) :
  getVar v (setVar v x s) = x.
Proof. destruct v; reflexivity. Qed.

Lemma getVar_setVar_other (v v' : Var) (x : float) (s : MagicState) :
  v' <> v -> getVar v' (setVar v x s) = getVar v' s.
Proof. destruct v, v'; intros H; try reflexivity; contradiction H; reflexivity. Qed.

Lemma updateVar_other (s : MagicState) (v v' : Var) :
  v' <> v -> getVar v' (updateVar M env locked targets s v) = getVar v' s.
Proof.
  intros H. unfold updateVar. destruct (isLocked locked v); [reflexivity|].
  apply getVar_setVar_other. exact H.
Qed.

Lemma updateVar_locked (s : MagicState) (v : Var) :
  isLocked locked v = true -> updateVar M env locked targets s v = s.
Proof. intros H. unfold updateVar. rewrite H. reflexivity. Qed.

Lemma trialOf_floored (base : MagicState) (v : Var) (dir : float) :
  getVar v (trialOf base v dir) = JS.max2 (getVar v base * dir) (floorOf v).
Proof. destruct v; reflexivity. Qed.

(** An update of [v] keeps the value of [v] or leaves it at a floored trial. *)
Lemma updateVar_same (s : MagicState) (v : Var) :
  let x := getVar v (updateVar M env locked targets s v) in
  x = getVar v s \/ JS.lt x (floorOf v) = false.
Proof.
  cbv zeta. unfold updateVar. destruct (isLocked locked v); [left; reflexivity|].
  rewrite getVar_setVar_same, bestLocal_unrolled.
  repeat match goal with
         | |- context [if ?b then _ else _] => destruct b
         end;
    first [ left; reflexivity
          | right; rewrite trialOf_floored; apply F64Lt.max2_not_below_r ].
Qed.

(** A property of the value of one variable that every update of that
    variable keeps is kept by a whole round. *)
Lemma magicRound_keeps (v : Var) (P : float -> Prop) :
  (forall s, P (getVar v s) -> P (getVar v (updateVar M env locked targets s v))) ->
  forall s, P (getVar v s) -> P (getVar v (magicRound M env locked targets s)).
Proof.
  intros Hstep s Hs. unfold magicRound. cbn [fold_left].
  destruct v.
  - rewrite !updateVar_other by discriminate. apply Hstep. exact Hs.
  - rewrite updateVar_other by discriminate. apply Hstep.
    rewrite updateVar_other by discriminate. exact Hs.
  - apply Hstep. rewrite !updateVar_other by discriminate. exact Hs.
Qed.

(** A property of states that every round keeps holds of the best entry. *)
Lemma magicLoop_keeps (P : MagicState -> Prop) :
  (forall s, P s -> P (magicRound M env locked targets s)) ->
  forall (n : nat) (state : MagicState) (best : option MagicBest),
    P state ->
    (forall b, best = Some b -> P (b_state b)) ->
    forall b, magicLoop M env locked targets n state best = Some b ->
              P (b_state b).
Proof.
  intros Hround. induction n as [|n IH]; intros state best Hstate Hbest b;
    cbn [magicLoop].
  - apply Hbest.
  - set (state' := magicRound M env locked targets state).
    set (cur := residuals M env locked targets state').
    set (fresh := {| b_state := state'; b_rms := fst cur; b_calc := snd cur |}).
    set (best' := match best with
                  | None => fresh
                  | Some b0 => if JS.lt (fst cur) (b_rms b0) then fresh else b0
                  end).
    assert (Hstate' : P state') by (apply Hround; exact Hstate).
    assert (Hbest' : P (b_state best')).
    { unfold best'. destruct best as [b0|]; [|exact Hstate'].
      destruct (JS.lt (fst cur) (b_rms b0)); [exact Hstate'|].
      apply Hbest. reflexivity. }
    destruct (JS.lt (b_rms best') 1e-4).
    + intros H. injection H as <-. exact Hbest'.
    + apply IH; [exact Hstate'|]. intros b' H. injection H as <-. exact Hbest'.
Qed.

(** The best entry is one of the states reached, and no state reached has
    a residual below its own. *)
Lemma magicLoop_minimal (n : nat) :
  forall (state : MagicState) (best : option MagicBest) (seen : list MagicState),
    (forall b, best = Some b ->
       bestOk M env locked targets b
       /\ In (b_state b) seen
       /\ forall s, In s seen ->
            JS.lt (rms M env locked targets s) (b_rms b) = false) ->
    (best = None -> seen = []) ->
    forall b, magicLoop M env locked targets n state best = Some b ->
      let all := seen ++ magicStates M env locked targets n state best in
      In (b_state b) all
      /\ forall s, In s all -> JS.lt (rms M env locked targets s) (b_rms b) = false.
Proof.
  induction n as [|n IH]; intros state best seen Hbest Hnone b;
    cbn [magicLoop magicStates].
  - intros E. destruct (Hbest b E) as (_ & Hin & Hmin). cbv zeta.
    rewrite app_nil_r. split; assumption.
  - set (state' := magicRound M env locked targets state).
    set (cur := residuals M env locked targets state').
    set (fresh := {| b_state := state'; b_rms := fst cur; b_calc := snd cur |}).
    set (best' := match best with
                  | None => fresh
                  | Some b0 => if JS.lt (fst cur) (b_rms b0) then fresh else b0
                  end).
    assert (Hinv : bestOk M env locked targets best'
                   /\ In (b_state best') (seen ++ [state'])
                   /\ forall s, In s (seen ++ [state']) ->
                        JS.lt (rms M env locked targets s) (b_rms best') = false).
    { unfold best'. destruct best as [b0|].
      - destruct (Hbest b0 eq_refl) as (Hok & Hin & Hmin).
        destruct (JS.lt (fst cur) (b_rms b0)) eqn:Elt.
        + split; [split; reflexivity|]. split.
          * apply in_or_app. right. left. reflexivity.
          * intros s Hs. apply in_app_or in Hs. destruct Hs as [Hs | [<- | []]].
            -- destruct (JS.lt (rms M env locked targets s) (b_rms fresh)) eqn:E;
                 [|reflexivity].
               rewrite <- (Hmin s Hs). symmetry.
               exact (F64Lt.lt_trans _ _ _ E Elt).
            -- apply F64Lt.lt_irrefl.
        + split; [exact Hok|]. split.
          * apply in_or_app. left. exact Hin.
          * intros s Hs. apply in_app_or in Hs. destruct Hs as [Hs | [<- | []]].
            -- apply Hmin. exact Hs.
            -- exact Elt.
      - rewrite (Hnone eq_refl). split; [split; reflexivity|]. split.
        + left. reflexivity.
        + intros s [<- | []]. apply F64Lt.lt_irrefl. }
    destruct (JS.lt (b_rms best') 1e-4).
    + intros E. injection E as <-. cbv zeta.
      destruct Hinv as (_ & Hin & Hmin). split; assumption.
    + intros E. cbv zeta.
      replace (seen ++ state' :: magicStates M env locked targets n state' (Some best'))
        with ((seen ++ [state']) ++ magicStates M env locked targets n state' (Some best'))
        by (rewrite <- app_assoc; reflexivity).
      apply (IH state' (Some best') (seen ++ [state'])); [| |exact E].
      * intros b' Hb'. injection Hb' as <-. exact Hinv.
      * discriminate.
Qed.

End MagicInvariants.

Lemma magicSearch_eq (M : MathLib) (env : Env)
    (w_mm h_mm velocityVal targetDpVal : float) :
  magicSearch M env w_mm h_mm velocityVal targetDpVal
  = magicLoop M env (magicLocks env)
      (magicTargets env w_mm h_mm velocityVal targetDpVal) 200
      (magicInit (magicTargets env w_mm h_mm velocityVal targetDpVal)) None.
Proof. reflexivity. Qed.

Lemma reportedState_eta (s : MagicState) (vel dp : float) :
  reportedState (ResMagic (st_width s) (st_height s) (st_flow s) vel dp) = Some s.
Proof. destruct s; reflexivity. Qed.

(** With 2 or 3 locks, a magic solve reports the state of the entry the
    search returns. *)
Lemma magic_reports_best (M : MathLib) (env : Env)
    (w_mm h_mm flowInputVal velocityVal targetDpVal : float) :
  mode env = magic ->
  (2 <= lockedCount (magicLocks env) <= 3)%nat ->
  exists (best : MagicBest) (r : Result),
    magicSearch M env w_mm h_mm velocityVal targetDpVal = Some best
    /\ bestOk M env (magicLocks env)
         (magicTargets env w_mm h_mm velocityVal targetDpVal) best
    /\ results (runSolverWithValues M env w_mm h_mm flowInputVal velocityVal
                  targetDpVal) = Some r
    /\ reportedState r = Some (b_state best).
Proof.
  intros Hmode Hcount.
  destruct (magicMode_reports M env w_mm h_mm velocityVal targetDpVal Hcount)
    as (best & Hsearch & Hok & Hmagic).
  exists best. eexists. split; [exact Hsearch|]. split; [exact Hok|].
  unfold runSolverWithValues. rewrite Hmode, Hmagic. cbv zeta. cbn [results].
  split; [reflexivity|]. apply reportedState_eta.
Qed.

(** X7.  A magic solve with 2 or 3 locks never moves a locked flow, width
    or height: the result reports it at the value the search started from.
    For a locked width or height that is the [w_mm] or [h_mm] passed to the
    call, or 200 mm when that is 0 or not finite.  For a locked flow it is
    the component's stored [flowInput] of the current render converted to
    m3/s, or 0.1 m3/s when that conversion gives 0; the [flowInputVal]
    passed to the call is not read in magic mode. *)
Theorem magic_locked_unchanged (M : MathLib) (env : Env)
    (w_mm h_mm flowInputVal velocityVal targetDpVal : float) (v : Var) :
  mode env = magic ->
  (2 <= lockedCount (magicLocks env) <= 3)%nat ->
  isLocked (magicLocks env) v = true ->
  exists (r : Result) (s : MagicState),
    results (runSolverWithValues M env w_mm h_mm flowInputVal velocityVal
               targetDpVal) = Some r
    /\ reportedState r = Some s
    /\ getVar v s
       = match v with
         | VFlow => JS.orElse (flowInputToM3s (flowInput env) (flowUnit env)) 0.1
         | VWidth => JS.orElse (safeNum w_mm 0) 200
         | VHeight => JS.orElse (safeNum h_mm 0) 200
         end.
Proof.
  intros Hmode Hcount Hlock.
  destruct (magic_reports_best M env w_mm h_mm flowInputVal velocityVal
              targetDpVal Hmode Hcount) as (best & r & Hsearch & _ & Hr & Hs).
  exists r, (b_state best). split; [exact Hr|]. split; [exact Hs|].
  rewrite magicSearch_eq in Hsearch.
  set (targets := magicTargets env w_mm h_mm velocityVal targetDpVal) in *.
  assert (Hinit : getVar v (magicInit targets)
                  = match v with
                    | VFlow => JS.orElse (flowInputToM3s (flowInput env) (flowUnit env)) 0.1
                    | VWidth => JS.orElse (safeNum w_mm 0) 200
                    | VHeight => JS.orElse (safeNum h_mm 0) 200
                    end) by (destruct v; reflexivity).
  rewrite <- Hinit.
  apply (magicLoop_keeps M env (magicLocks env) targets
           (fun s => getVar v s = getVar v (magicInit targets)))
    with (n := 200%nat) (state := magicInit targets) (best := None).
  - intros s Hs'.
    apply (magicRound_keeps M env (magicLocks env) targets v
             (fun x => x = getVar v (magicInit targets))); [|exact Hs'].
    intros s0 Hs0. rewrite updateVar_locked; assumption.
  - reflexivity.
  - intros b Hb. discriminate Hb.
  - exact Hsearch.
Qed.

(** Width, height and velocity locked: the width comes back as entered.
    Flow and width locked, with 250 L/s stored in the component and 100
    passed to the call: the flow comes back as the stored 250 L/s. *)
Lemma magic_locked_unchanged_witness :
  (exists (r : Result) (s : MagicState),
     results (runSolverWithValues SampleMath.lib
                (officeEnv magic locksWidthHeightVelocity) 200 200 100 3 1) = Some r
     /\ reportedState r = Some s
     /\ st_width s = 200)
  /\ (exists (r : Result) (s : MagicState),
        results (runSolverWithValues SampleMath.lib
                   (withFlowInput 250 (officeEnv magic locksFlowWidth))
                   200 200 100 3 1) = Some r
        /\ reportedState r = Some s
        /\ st_flow s = 0.25).
Proof.
  split.
  - destruct (magic_locked_unchanged SampleMath.lib
                (officeEnv magic locksWidthHeightVelocity) 200 200 100 3 1 VWidth
                eq_refl) as (r & s & Hr & Hs & Hw).
    + cbv. lia.
    + reflexivity.
    + exists r, s. split; [exact Hr|]. split; [exact Hs|]. exact Hw.
  - destruct (magic_locked_unchanged SampleMath.lib
                (withFlowInput 250 (officeEnv magic locksFlowWidth))
                200 200 100 3 1 VFlow eq_refl) as (r & s & Hr & Hs & Hf).
    + cbv. lia.
    + reflexivity.
    + exists r, s. split; [exact Hr|]. split; [exact Hs|]. exact Hf.
Defined.

(** X8.  A magic solve with 2 or 3 locks reports each of flow, width and
    height either at the value the search started from or at a value that
    is not below the floor of that variable (1e-6 m3/s for the flow, 10 mm
    for width and height). *)
Theorem magic_respects_floors (M : MathLib) (env : Env)
    (w_mm h_mm flowInputVal velocityVal targetDpVal : float) (v : Var) :
  mode env = magic ->
  (2 <= lockedCount (magicLocks env) <= 3)%nat ->
  exists (r : Result) (s : MagicState),
    results (runSolverWithValues M env w_mm h_mm flowInputVal velocityVal
               targetDpVal) = Some r
    /\ reportedState r = Some s
    /\ (getVar v s
        = getVar v (magicInit (magicTargets env w_mm h_mm velocityVal targetDpVal))
        \/ JS.lt (getVar v s) (floorOf v) = false).
Proof.
  intros Hmode Hcount.
  destruct (magic_reports_best M env w_mm h_mm flowInputVal velocityVal
              targetDpVal Hmode Hcount) as (best & r & Hsearch & _ & Hr & Hs).
  exists r, (b_state best). split; [exact Hr|]. split; [exact Hs|].
  rewrite magicSearch_eq in Hsearch.
  set (targets := magicTargets env w_mm h_mm velocityVal targetDpVal) in *.
  apply (magicLoop_keeps M env (magicLocks env) targets
           (fun s => getVar v s = getVar v (magicInit targets)
                     \/ JS.lt (getVar v s) (floorOf v) = false))
    with (n := 200%nat) (state := magicInit targets) (best := None).
  - intros s Hs'.
    apply (magicRound_keeps M env (magicLocks env) targets v
             (fun x => x = getVar v (magicInit targets)
                       \/ JS.lt x (floorOf v) = false)); [|exact Hs'].
    intros s0 Hs0.
    destruct (updateVar_same M env (magicLocks env) targets s0 v) as [E | E].
    + rewrite E. exact Hs0.
    + right. exact E.
  - left. reflexivity.
  - intros b Hb. discriminate Hb.
  - exact Hsearch.
Qed.

(** X9.  A magic solve with 2 or 3 locks reports one of the states its
    rounds reached, and none of the states reached has an RMS residual
    strictly below that of the reported state. *)
Theorem magic_reports_minimum (M : MathLib) (env : Env)
    (w_mm h_mm flowInputVal velocityVal targetDpVal : float) :
  mode env = magic ->
  (2 <= lockedCount (magicLocks env) <= 3)%nat ->
  let targets := magicTargets env w_mm h_mm velocityVal targetDpVal in
  let reached :=
    magicStates M env (magicLocks env) targets 200 (magicInit targets) None in
  exists (r : Result) (s : MagicState),
    results (runSolverWithValues M env w_mm h_mm flowInputVal velocityVal
               targetDpVal) = Some r
    /\ reportedState r = Some s
    /\ In s reached
    /\ forall s', In s' reached ->
         JS.lt (rms M env (magicLocks env) targets s')
               (rms M env (magicLocks env) targets s) = false.
Proof.
  intros Hmode Hcount targets reached.
  destruct (magic_reports_best M env w_mm h_mm flowInputVal velocityVal
              targetDpVal Hmode Hcount) as (best & r & Hsearch & [Hrms _] & Hr & Hs).
  exists r, (b_state best). split; [exact Hr|]. split; [exact Hs|].
  rewrite magicSearch_eq in Hsearch.
  fold targets in Hrms, Hsearch. rewrite <- Hrms.
  pose proof (magicLoop_minimal M env (magicLocks env) targets 200
                (magicInit targets) None []) as Hmin.
  cbv zeta in Hmin. rewrite app_nil_l in Hmin. fold reached in Hmin.
  clearbody reached.
  apply Hmin; [intros b Hb; discriminate Hb | reflexivity | exact Hsearch].
Qed.

(** Width, height and velocity 3 m/s locked: the flow 0.121 m3/s that is
    reported is one of the 200 states reached. *)
Lemma magic_reports_minimum_witness :
  let env := officeEnv magic locksWidthHeightVelocity in
  let targets := magicTargets env 200 200 3 1 in
  exists (r : Result) (s : MagicState),
    results (runSolverWithValues SampleMath.lib env 200 200 100 3 1) = Some r
    /\ reportedState r = Some s
    /\ In s (magicStates SampleMath.lib env locksWidthHeightVelocity targets 200
               (magicInit targets) None).
Proof.
  cbv zeta.
  destruct (magic_reports_minimum SampleMath.lib
              (officeEnv magic locksWidthHeightVelocity) 200 200 100 3 1 eq_refl)
    as (r & s & Hr & Hs & Hin & _).
  - cbv. lia.
  - exists r, s. split; [exact Hr|]. split; [exact Hs|]. exact Hin.
Defined.

(** The same solve leaves the flow at or above its floor. *)
Lemma magic_respects_floors_witness :
  exists (r : Result) (s : MagicState),
    results (runSolverWithValues SampleMath.lib
               (officeEnv magic locksWidthHeightVelocity) 200 200 100 3 1) = Some r
    /\ reportedState r = Some s
    /\ (st_flow s = 0.1 \/ JS.lt (st_flow s) 1e-6 = false).
Proof.
  destruct (magic_respects_floors SampleMath.lib
              (officeEnv magic locksWidthHeightVelocity) 200 200 100 3 1 VFlow
              eq_refl) as (r & s & Hr & Hs & H).
  - cbv. lia.
  - exists r, s. split; [exact Hr|]. split; [exact Hs|]. exact H.
Defined.

(** * When the magic search stops *)

Section MagicStop.

Variable M : MathLib.
Variable env : Env.
Variable locked : Locks.
Variable targets : Targets.

(** The loop goes on only while the best RMS is not below 1e-4: it either
    runs all its rounds, or stops at the round whose state is the new best
    with an RMS below 1e-4. *)
Lemma magicLoop_stop (n : nat) :
  forall (state : MagicState) (best : option MagicBest),
    (forall b, best = Some b -> JS.lt (b_rms b) 1e-4 = false) ->
    forall b, magicLoop M env locked targets n state best = Some b ->
      let reached := magicStates M env locked targets n state best in
      (JS.lt (b_rms b) 1e-4 = false /\ List.length reached = n)
      \/ (JS.lt (b_rms b) 1e-4 = true
          /\ exists before, reached = before ++ [b_state b]).
Proof.
  induction n as [|n IH]; intros state best Hbest b;
    cbn [magicLoop magicStates].
  - intros E. left. split; [apply Hbest; exact E | reflexivity].
  - set (state' := magicRound M env locked targets state).
    set (cur := residuals M env locked targets state').
    set (fresh := {| b_state := state'; b_rms := fst cur; b_calc := snd cur |}).
    set (best' := match best with
                  | None => fresh
                  | Some b0 => if JS.lt (fst cur) (b_rms b0) then fresh else b0
                  end).
    destruct (JS.lt (b_rms best') 1e-4) eqn:Estop.
    + intros E. injection E as <-. right. split; [exact Estop|].
      exists []. cbn [app]. f_equal.
      unfold best' in *. destruct best as [b0|]; [|reflexivity].
      destruct (JS.lt (fst cur) (b_rms b0)); [reflexivity|].
      rewrite (Hbest b0 eq_refl) in Estop. discriminate Estop.
    + intros E. cbv zeta.
      assert (Hinv : forall b', Some best' = Some b' -> JS.lt (b_rms b') 1e-4 = false)
        by (intros b' Hb'; injection Hb' as <-; exact Estop).
      destruct (IH state' (Some best') Hinv b E)
        as [[Hlt Hlen] | [Hlt (before & Hb)]].
      * left. split; [exact Hlt|]. cbn [List.length]. rewrite Hlen. reflexivity.
      * right. split; [exact Hlt|]. exists (state' :: before).
        rewrite Hb. reflexivity.
Qed.

End MagicStop.

(** X10.  A magic solve with 2 or 3 locks either reports a state whose RMS
    residual is below 1e-4, which is then the state of the last round it
    ran, or reports a state whose RMS is not below 1e-4 after running all
    200 rounds. *)
Theorem magic_stops_on_convergence (M : MathLib) (env : Env)
    (w_mm h_mm flowInputVal velocityVal targetDpVal : float) :
  mode env = magic ->
  (2 <= lockedCount (magicLocks env) <= 3)%nat ->
  let targets := magicTargets env w_mm h_mm velocityVal targetDpVal in
  let reached :=
    magicStates M env (magicLocks env) targets 200 (magicInit targets) None in
  exists (r : Result) (s : MagicState),
    results (runSolverWithValues M env w_mm h_mm flowInputVal velocityVal
               targetDpVal) = Some r
    /\ reportedState r = Some s
    /\ ((JS.lt (rms M env (magicLocks env) targets s) 1e-4 = true
         /\ exists before, reached = before ++ [s])
        \/ (JS.lt (rms M env (magicLocks env) targets s) 1e-4 = false
            /\ List.length reached = 200%nat)).
Proof.
  intros Hmode Hcount targets reached.
  destruct (magic_reports_best M env w_mm h_mm flowInputVal velocityVal
              targetDpVal Hmode Hcount) as (best & r & Hsearch & [Hrms _] & Hr & Hs).
  exists r, (b_state best). split; [exact Hr|]. split; [exact Hs|].
  rewrite magicSearch_eq in Hsearch.
  fold targets in Hrms, Hsearch. rewrite <- Hrms.
  pose proof (magicLoop_stop M env (magicLocks env) targets 200
                (magicInit targets) None) as Hstop.
  cbv zeta in Hstop. fold reached in Hstop. clearbody reached.
  assert (Hnone : forall b : MagicBest, None = Some b -> JS.lt (b_rms b) 1e-4 = false)
    by (intros b Hb; discriminate Hb).
  destruct (Hstop Hnone best Hsearch) as [[Hlt Hlen] | [Hlt Hlast]].
  - right. split; assumption.
  - left. split; assumption.
Qed.

(** Velocity 3 m/s is off the grid of flows: all 200 rounds run.  Velocity
    2.5 m/s is met after two rounds. *)
Lemma magic_stops_on_convergence_witness :
  let env := officeEnv magic locksWidthHeightVelocity in
  List.length (magicStates SampleMath.lib env locksWidthHeightVelocity
                 (magicTargets env 200 200 3 1) 200
                 (magicInit (magicTargets env 200 200 3 1)) None) = 200%nat
  /\ List.length (magicStates SampleMath.lib env locksWidthHeightVelocity
                    (magicTargets env 200 200 2.5 1) 200
                    (magicInit (magicTargets env 200 200 2.5 1)) None) = 2%nat
  /\ exists (r : Result) (s : MagicState),
       results (runSolverWithValues SampleMath.lib env 200 200 100 2.5 1) = Some r
       /\ reportedState r = Some s.
Proof.
  cbv zeta. split; [vm_compute; reflexivity|]. split; [vm_compute; reflexivity|].
  destruct (magic_stops_on_convergence SampleMath.lib
              (officeEnv magic locksWidthHeightVelocity) 200 200 100 2.5 1 eq_refl)
    as (r & s & Hr & Hs & _).
  - cbv. lia.
  - exists r, s. split; assumption.
Defined.

(** * Solve-one-dimension mode with nothing to solve from *)

Lemma zeroOrNan_not_positive (z : float) : zeroOrNan z -> JS.gt z 0 = false.
Proof. intros [-> | [-> | ->]]; reflexivity. Qed.

Lemma area_zeroOrNan (w h : float) :
  is_zero w = true \/ is_zero h = true -> zeroOrNan (rectArea_m2_from_mm w h).
Proof.
  intros Hz. unfold rectArea_m2_from_mm.
  assert (Hp : zeroOrNan ((w / 1000) * (h / 1000))).
  { destruct Hz as [H | H].
    - apply F64.mul_zeroOrNan_l, F64.div_1000_zeroOrNan.
      destruct (F64.zero_cases w H) as [-> | ->]; [left | right; left]; reflexivity.
    - apply F64.mul_zeroOrNan_r, F64.div_1000_zeroOrNan.
      destruct (F64.zero_cases h H) as [-> | ->]; [left | right; left]; reflexivity. }
  destruct Hp as [-> | [-> | ->]]; [left | left | right; right]; reflexivity.
Qed.

Lemma zero_not_truthy (x : float) : is_zero x = true -> JS.truthy x = false.
Proof. intros H. unfold JS.truthy. rewrite H. reflexivity. Qed.

(** Without a positive flow, or without any positive target, there is no
    candidate for the missing dimension. *)
Lemma no_candidates
    (solve : bool -> float -> float -> float -> option DimSolution)
    (fixedIsWidth : bool) (fixed_mm Qv needV needDp : float) :
  JS.gt Qv 0 = false \/ (JS.gt needV 0 = false /\ JS.gt needDp 0 = false) ->
  missingFromCandidates solve fixedIsWidth fixed_mm Qv needV needDp = None.
Proof.
  intros H. unfold missingFromCandidates, candidateFromV, candidateFromDp.
  destruct H as [HQ | [HV HDp]].
  - rewrite HQ, !andb_false_r. reflexivity.
  - rewrite HV, HDp. reflexivity.
Qed.

(** X11.  In solve-one-dimension mode with one dimension positive and the
    other zero, nothing is solved when no positive flow is entered (the
    velocity-implied flow is velocity times a zero area) or when neither a
    velocity nor a pressure-drop target is positive: the result set
    reports the zero dimension as it is, with an infinite pressure drop;
    no warning is set and nothing is written back. *)
Theorem fixedDim_nothing_to_solve (M : MathLib) (env : Env)
    (w_mm h_mm flowInputVal velocityVal targetDpVal : float) :
  mode env = fixedDim ->
  (JS.gt w_mm 0 = true /\ is_zero h_mm = true)
  \/ (JS.gt h_mm 0 = true /\ is_zero w_mm = true) ->
  let Q := flowInputToM3s flowInputVal (flowUnit env) in
  let needV := safeNum velocityVal 0 in
  let needDp := safeNum targetDpVal 0 in
  JS.gt Q 0 = false \/ (JS.gt needV 0 = false /\ JS.gt needDp 0 = false) ->
  let out := runSolverWithValues M env w_mm h_mm flowInputVal velocityVal targetDpVal in
  results out
  = Some (ResFixedDim w_mm h_mm (fixedDimFlow w_mm h_mm Q velocityVal) infinity)
  /\ warnings out = []
  /\ writeBack out = None
  /\ staleCleared out = true.
Proof.
  intros Hmode Hdims. cbv zeta. intros Hnothing.
  unfold runSolverWithValues. rewrite Hmode.
  set (Q := flowInputToM3s flowInputVal (flowUnit env)) in *.
  assert (Hzero : is_zero w_mm = true \/ is_zero h_mm = true)
    by (destruct Hdims as [[_ H] | [_ H]]; [right | left]; exact H).
  assert (Hcand : JS.gt (fixedDimFlow w_mm h_mm Q velocityVal) 0 = false
                  \/ (JS.gt (safeNum velocityVal 0) 0 = false
                      /\ JS.gt (safeNum targetDpVal 0) 0 = false)).
  { destruct Hnothing as [HQ | H]; [left | right; exact H].
    unfold fixedDimFlow. cbv zeta. rewrite HQ.
    destruct (JS.gt (safeNum velocityVal 0) 0); [|reflexivity].
    apply zeroOrNan_not_positive, F64.mul_zeroOrNan_r, area_zeroOrNan.
    exact Hzero. }
  assert (HA : JS.gt (rectArea_m2_from_mm w_mm h_mm) 0 = false)
    by (apply zeroOrNan_not_positive, area_zeroOrNan; exact Hzero).
  assert (Hdp : forall Qv, dp_per_m (evalAt M env w_mm h_mm Qv) = infinity).
  { intros Qv. unfold evalAt.
    exact (proj1 (proj2 (proj2 (calc_no_area M w_mm h_mm Qv _ _ _ HA)))). }
  destruct Hdims as [[Hw Hh] | [Hh Hw]].
  - rewrite (fixedDimWith_width_given M env _ w_mm h_mm Q velocityVal targetDpVal
               Hw (or_introl (zero_not_truthy h_mm Hh))).
    cbv zeta. rewrite (no_candidates _ _ _ _ _ _ Hcand).
    cbn [assignIfTruthy]. rewrite Hdp. repeat split; reflexivity.
  - rewrite (fixedDimWith_height_given M env _ w_mm h_mm Q velocityVal targetDpVal
               Hh (or_introl (zero_not_truthy w_mm Hw))).
    cbv zeta. rewrite (no_candidates _ _ _ _ _ _ Hcand).
    cbn [assignIfTruthy]. rewrite Hdp. repeat split; reflexivity.
Qed.

(** Width 300 mm, no height, no flow, but 5 m/s and 1 Pa/m entered: the
    height stays 0. *)
Lemma fixedDim_nothing_to_solve_witness :
  let out := runSolverWithValues SampleMath.lib (officeEnv fixedDim noLocks)
               300 0 0 5 1 in
  results out = Some (ResFixedDim 300 0 0 infinity)
  /\ warnings out = []
  /\ writeBack out = None
  /\ staleCleared out = true.
Proof.
  exact (fixedDim_nothing_to_solve SampleMath.lib (officeEnv fixedDim noLocks)
           300 0 0 5 1 eq_refl (or_introl (conj eq_refl eq_refl))
           (or_introl eq_refl)).
Defined.

(** * What a magic solve writes back *)

(** X12.  A magic solve with 2 or 3 locks writes its reported width, height
    and flow back into the component, the flow in m3/s; the flow target of
    the next magic solve reads that number in the selected flow unit, so it
    is the reported flow itself only for the unit m3/s, and the reported
    flow times 0.001 for L/s or divided by 3600 for m3/h. *)
Theorem magic_write_back_units (M : MathLib) (env : Env)
    (w_mm h_mm flowInputVal velocityVal targetDpVal : float) :
  mode env = magic ->
  (2 <= lockedCount (magicLocks env) <= 3)%nat ->
  let out := runSolverWithValues M env w_mm h_mm flowInputVal velocityVal targetDpVal in
  exists s : MagicState,
    option_map (fun r => reportedState r) (results out) = Some (Some s)
    /\ writeBack out = Some (st_width s, st_height s, st_flow s)
    /\ (JS.isFinite (st_flow s) = true ->
        forall w' h' v' t' : float,
          tg_flow (magicTargets (withFlowInput (st_flow s) env) w' h' v' t')
          = match flowUnit env with
            | Ls => st_flow s * 0.001
            | M3h => st_flow s / 3600
            | M3s => st_flow s
            end).
Proof.
  intros Hmode Hcount out.
  destruct (magicMode_reports M env w_mm h_mm velocityVal targetDpVal Hcount)
    as (best & _ & _ & Hmagic).
  assert (Hout : out = magicMode M env w_mm h_mm velocityVal targetDpVal).
  { unfold out, runSolverWithValues. rewrite Hmode. reflexivity. }
  rewrite Hmagic in Hout. exists (b_state best). rewrite Hout. cbv zeta.
  cbn [results writeBack option_map]. rewrite reportedState_eta.
  split; [reflexivity|]. split; [reflexivity|].
  intros Hfin w' h' v' t'. unfold magicTargets, withFlowInput.
  cbn [tg_flow flowInput flowUnit]. unfold flowInputToM3s, safeNum.
  rewrite Hfin. destruct (flowUnit env); reflexivity.
Qed.

(** With the unit L/s, the flow 0.121 m3/s found for 3 m/s would be read
    back as 0.000121 m3/s. *)
Lemma magic_write_back_units_witness :
  let env := officeEnv magic locksWidthHeightVelocity in
  exists s : MagicState,
    writeBack (runSolverWithValues SampleMath.lib env 200 200 100 3 1)
    = Some (st_width s, st_height s, st_flow s)
    /\ st_flow s = 0.12100000000000002
    /\ tg_flow (magicTargets (withFlowInput (st_flow s) env) 200 200 3 1)
       = 0.00012100000000000003.
Proof.
  cbv zeta.
  destruct (magic_write_back_units SampleMath.lib
              (officeEnv magic locksWidthHeightVelocity) 200 200 100 3 1 eq_refl)
    as (s & _ & Hwb & Hnext).
  - cbv. lia.
  - assert (E : writeBack (runSolverWithValues SampleMath.lib
                             (officeEnv magic locksWidthHeightVelocity)
                             200 200 100 3 1)
                = Some (200, 200, 0.12100000000000002))
      by (vm_compute; reflexivity).
    rewrite E in Hwb. injection Hwb as Hw Hh Hq.
    assert (Hfin : JS.isFinite (st_flow s) = true)
      by (rewrite <- Hq; reflexivity).
    exists s. split; [rewrite E, <- Hw, <- Hh, <- Hq; reflexivity|].
    split; [symmetry; exact Hq|].
    rewrite (Hnext Hfin). rewrite <- Hq. reflexivity.
Defined.

(** * Lock toggles *)

(** X13.  Toggling a lock flips that lock only: the number of locked
    constraints goes up by one if it was unlocked and down by one if it was
    locked, toggling the same key twice restores the locks, and the stale
    flag is raised unless live mode is on. *)
Theorem toggleMagicLock_flips (liveMode : bool) (key : LockKey)
    (locks : Locks) (stale : bool) :
  let st' := toggleMagicLock liveMode key (locks, stale) in
  keyLocked key (fst st') = negb (keyLocked key locks)
  /\ (forall other : LockKey,
        other <> key -> keyLocked other (fst st') = keyLocked other locks)
  /\ lockedCount (fst st')
     = (if keyLocked key locks then lockedCount locks - 1
        else lockedCount locks + 1)%nat
  /\ fst (toggleMagicLock liveMode key st') = locks
  /\ snd st' = (if liveMode then stale else true).
Proof.
  cbv zeta. destruct locks as [lf lw lh lv ld].
  repeat split.
  - destruct key; reflexivity.
  - intros other Hne. destruct key, other; try reflexivity;
      contradiction Hne; reflexivity.
  - destruct key, lf, lw, lh, lv, ld; reflexivity.
  - destruct key; cbn; rewrite negb_involutive; reflexivity.
  - destruct liveMode; reflexivity.
Qed.

(** * The flow [solveMaxFlow] keeps *)

Lemma fold_last_feasible_split (target : float) (trials : list (float * float)) :
  forall bestQ : float,
    let q := fold_left
               (fun acc trial => if feasible target trial then fst trial else acc)
               trials bestQ in
    (q = bestQ /\ forall trial, In trial trials -> feasible target trial = false)
    \/ exists before trial after,
         trials = before ++ trial :: after
         /\ feasible target trial = true
         /\ q = fst trial
         /\ forall later, In later after -> feasible target later = false.
Proof.
  induction trials as [|t ts IH]; intros bestQ; cbn [fold_left].
  - left. split; [reflexivity | intros trial []].
  - destruct (IH (if feasible target t then fst t else bestQ))
      as [[E Hnone] | (before & trial & after & Ets & Hf & E & Hafter)].
    + destruct (feasible target t) eqn:Ef.
      * right. exists [], t, ts. repeat split; auto.
      * left. split; [exact E|]. intros trial [<- | Hin]; [exact Ef|].
        apply Hnone. exact Hin.
    + right. exists (t :: before), trial, after.
      split; [rewrite Ets; reflexivity|]. repeat split; auto.
Qed.

(** X14.  Whenever [solveMaxFlow] returns a flow, it is the flow of the last
    feasible trial of its bisection (finite pressure drop not above the
    target): every trial after it was infeasible; it is 0 when no trial was
    feasible. *)
Theorem solveMaxFlow_last_feasible (M : MathLib) (env : Env)
    (w_mm h_mm targetDpPaPerM q : float) :
  solveMaxFlow M env w_mm h_mm targetDpPaPerM = Some q ->
  let trials :=
    flowTrials M env (mmToM w_mm) (mmToM h_mm) targetDpPaPerM 80 1e-6 10 in
  (q = 0 /\ forall trial, In trial trials -> feasible targetDpPaPerM trial = false)
  \/ exists before trial after,
       trials = before ++ trial :: after
       /\ feasible targetDpPaPerM trial = true
       /\ q = fst trial
       /\ forall later, In later after -> feasible targetDpPaPerM later = false.
Proof.
  intros Hsome.
  destruct (solveMaxFlow_some M env w_mm h_mm targetDpPaPerM q Hsome)
    as (Hw & Hh & Ht & Hq).
  rewrite (guard_passed_finite w_mm Hw), (guard_passed_finite h_mm Hh) in Hq.
  destruct (target_passed_finite targetDpPaPerM Ht) as [Et _].
  rewrite Et, flowLoop_last_feasible in Hq. cbv zeta.
  set (trials := flowTrials M env (mmToM w_mm) (mmToM h_mm) targetDpPaPerM
                   80 1e-6 10) in *.
  clearbody trials. rewrite Hq.
  exact (fold_last_feasible_split targetDpPaPerM trials 0).
Qed.

(** The 200 mm square duct at 1 Pa/m: the flow returned is a feasible
    trial. *)
Lemma solveMaxFlow_last_feasible_witness :
  let env := officeEnv maxFlow noLocks in
  solveMaxFlow SampleMath.lib env 200 200 1 = Some 0.15239814052200315
  /\ exists trial,
       In trial (flowTrials SampleMath.lib env (mmToM 200) (mmToM 200) 1 80 1e-6 10)
       /\ feasible 1 trial = true
       /\ fst trial = 0.15239814052200315.
Proof.
  cbv zeta.
  assert (Hs : solveMaxFlow SampleMath.lib (officeEnv maxFlow noLocks) 200 200 1
               = Some 0.15239814052200315) by (vm_compute; reflexivity).
  split; [exact Hs|].
  destruct (solveMaxFlow_last_feasible SampleMath.lib (officeEnv maxFlow noLocks)
              200 200 1 _ Hs)
    as [[E _] | (before & trial & after & Ets & Hf & E & _)].
  - discriminate (f_equal is_zero E).
  - exists trial. split; [rewrite Ets; apply in_or_app; right; left; reflexivity|].
    split; [exact Hf | symmetry; exact E].
Defined.

(** * The pressure drop along the height (claim C3) *)

(** Binary64 addition and multiplication commute (there is one NaN). *)
Module F64Comm.

Lemma SFmul_comm (prec emax : Z) (x y : spec_float) :
  SFmul prec emax x y = SFmul prec emax y x.
Proof.
  destruct x as [sx| sx| |sx mx ex], y as [sy| sy| |sy my ey]; cbn [SFmul];
    rewrite ?(xorb_comm sx sy), ?(Pos.mul_comm mx my), ?(Z.add_comm ex ey);
    reflexivity.
Qed.

Lemma SFadd_comm (prec emax : Z) (x y : spec_float) :
  SFadd prec emax x y = SFadd prec emax y x.
Proof.
  destruct x as [sx| sx| |sx mx ex], y as [sy| sy| |sy my ey]; cbn [SFadd];
    try reflexivity;
    try (destruct sx, sy; reflexivity).
  rewrite (Z.min_comm ex ey), Z.add_comm. reflexivity.
Qed.

Lemma mul_comm (x y : float) : x * y = y * x.
Proof.
  apply Prim2SF_inj. rewrite !FloatAxioms.mul_spec. apply SFmul_comm.
Qed.

Lemma add_comm (x y : float) : x + y = y + x.
Proof.
  apply Prim2SF_inj. rewrite !FloatAxioms.add_spec. apply SFadd_comm.
Qed.

End F64Comm.











(** * The round trip of the reference duty (claim C4) *)

(** C4.  For the fixed width 300 mm, the flow 0.2 m3/s, the target 1.0 Pa/m,
    galvanised steel, 20 C and 50 % RH (reference math library),
    [solveMissingDimension] returns a height, 166.93 mm, and the evaluator's
    pressure drop at that height is within the relative tolerance 1e-4 of
    the target. *)
Theorem solveMissingDimension_round_trip :
  exists sol : DimSolution,
    solveMissingDimension SampleMath.lib (officeEnv fixedDim noLocks)
      true 300 0.2 1.0 = Some sol
    /\ displayValueMm sol = 166.93244819641112
    /\ let dp := dp_per_m (calcRectNums SampleMath.lib 300 (displayValueMm sol)
                             0.2 20 50 "Galvanised steel") in
       JS.lt (abs (dp - 1.0) / 1.0) 1e-4 = true.
Proof.
  exists {| displayValueMm := 166.93244819641112; sol_dp := 0.99992797264458289 |}.
  cbv zeta. repeat split; vm_compute; reflexivity.
Qed.
